(** * gossa: the sandboxed path resolver and the handlers built on it

    A shallow embedding of [gossa.go]: the path resolver [enforcePath], the
    mutation handler [rpc], the archive walker of [zipRPC] and the row
    construction of [replyList], with the parts of Go's [strings] and
    [path/filepath] packages they call (Unix flavour: the separator is the
    byte '/', there is no volume name); then the handlers [doContent] and
    [upload], the start of [main], [humanize] and the path-segment
    escaping of [net/url].

    Go strings are byte strings; they are modelled by [string], a list of
    [ascii] bytes. *)

From Stdlib Require Import String Ascii List Bool Arith Lia.
From Stdlib Require Import ZArith QArith.
Import ListNotations.
Close Scope Q_scope.
Close Scope Z_scope.
Local Open Scope string_scope.
Local Open Scope bool_scope.

Set Implicit Arguments.

(* ================================================================== *)
(** ** Package [strings] *)

Module Strings.

(** [strings.HasPrefix(s, prefix)]. *)
Definition HasPrefix (s pre : string) : bool := String.prefix pre s.

(** The rest of [s] after [pre], when [s] starts with [pre]. *)
Fixpoint cutPrefix (s pre : string) : option string :=
  match pre, s with
  | EmptyString, _ => Some s
  | String a pre', String b s' =>
      if Ascii.eqb a b then cutPrefix s' pre' else None
  | String _ _, EmptyString => None
  end.

(** [strings.TrimPrefix(s, prefix)]: [s] without the leading [prefix];
    [s] itself, unchanged, when it does not start with [prefix]. *)
Definition TrimPrefix (s pre : string) : string :=
  match cutPrefix s pre with
  | Some rest => rest
  | None => s
  end.

(** [strings.HasSuffix(s, suffix)]. *)
Definition HasSuffix (s suf : string) : bool :=
  (String.length suf <=? String.length s)%nat
  && (substring (String.length s - String.length suf) (String.length suf) s =? suf).

(** [strings.Contains(s, substr)]. *)
Fixpoint Contains (s sub : string) : bool :=
  if HasPrefix s sub then true
  else match s with
       | EmptyString => false
       | String _ s' => Contains s' sub
       end.

(** [strings.Split(s, sep)] for a one-byte separator: the substrings
    between the occurrences of [sep]; a string with n occurrences gives
    n+1 pieces, so the result is never empty. *)
Fixpoint Split (s : string) (sep : ascii) : list string :=
  match s with
  | EmptyString => [EmptyString]
  | String c s' =>
      if Ascii.eqb c sep then EmptyString :: Split s' sep
      else match Split s' sep with
           | piece :: pieces => String c piece :: pieces
           | [] => [String c EmptyString]
           end
  end.

(** [strings.Join(elems, sep)]. *)
Fixpoint Join (elems : list string) (sep : string) : string :=
  match elems with
  | [] => EmptyString
  | [e] => e
  | e :: rest => e ++ sep ++ Join rest sep
  end.

(** One byte of the ASCII branch of [strings.ToLower]: 'A'..'Z' go to
    'a'..'z'. *)
Definition lowerByte (c : ascii) : ascii :=
  let n := nat_of_ascii c in
  if ((65 <=? n) && (n <=? 90))%nat then ascii_of_nat (n + 32) else c.

(** Every byte is below [utf8.RuneSelf] (128). *)
Fixpoint isASCII (s : string) : bool :=
  match s with
  | EmptyString => true
  | String c s' => (nat_of_ascii c <? 128)%nat && isASCII s'
  end.

(** The ASCII branch of [strings.ToLower]. *)
Fixpoint lowerASCII (s : string) : string :=
  match s with
  | EmptyString => EmptyString
  | String c s' => String (lowerByte c) (lowerASCII s')
  end.

(** [strings.ToLower]: a string of ASCII bytes is lower-cased byte by
    byte; any other string goes through [Map(unicode.ToLower, s)], which
    decodes the runes, maps each to its lower case by the Unicode tables
    and encodes them again.  That map is not modelled: it is the
    argument [mapLower]. *)
Definition ToLower (mapLower : string -> string) (s : string) : string :=
  if isASCII s then lowerASCII s else mapLower s.

End Strings.

(* ================================================================== *)
(** ** Package [path/filepath] (Unix) *)

Module Filepath.
Import Strings.

Definition Separator : ascii := "/"%char.

(** [filepath.IsAbs]. *)
Definition IsAbs (path : string) : bool := HasPrefix path "/".

(** The element loop of [filepath.Clean], on the elements of the path
    (the pieces between separators).  [out] is the output buffer as a
    stack of elements, last one first.  An empty element and "." are
    dropped; ".." removes the last element of the output when there is
    one to remove (one that is not itself a leading ".."), is dropped at
    the top of a rooted path, and is kept at the front of a path that is
    not rooted. *)
Fixpoint cleanElems (rooted : bool) (out : list string) (elems : list string)
  : list string :=
  match elems with
  | [] => rev out
  | e :: rest =>
      if (e =? "") || (e =? ".") then cleanElems rooted out rest
      else if e =? ".." then
        match out with
        | top :: out' =>
            if top =? ".."
            then (if rooted then cleanElems rooted out rest
                  else cleanElems rooted (".." :: out) rest)
            else cleanElems rooted out' rest
        | [] =>
            if rooted then cleanElems rooted [] rest
            else cleanElems rooted [".."] rest
        end
      else cleanElems rooted (e :: out) rest
  end.

(** [filepath.Clean]: the shortest path name equivalent to [path] by
    purely lexical processing.  The empty path gives ".". *)
Definition Clean (path : string) : string :=
  if path =? "" then "."
  else
    let rooted := IsAbs path in
    let out := cleanElems rooted [] (Split path Separator) in
    if rooted then "/" ++ Strings.Join out "/"
    else match out with
         | [] => "."
         | _ => Strings.Join out "/"
         end.

(** [filepath.Join]: the first non-empty element and all that follow are
    joined with the separator and cleaned; "" when every element is
    empty. *)
Fixpoint Join (elem : list string) : string :=
  match elem with
  | [] => ""
  | e :: rest =>
      if e =? "" then Join rest
      else Clean (Strings.Join elem "/")
  end.

(** [filepath.Abs]: an absolute path is cleaned; another one is joined
    onto the working directory, and the call fails when [os.Getwd]
    does.  [wd] is the result of [os.Getwd].  The second component is
    [true] when the returned error is not nil. *)
Definition Abs (wd : option string) (path : string) : string * bool :=
  if IsAbs path then (Clean path, false)
  else match wd with
       | Some d => (Join [d; path], false)
       | None => ("", true)
       end.

(** [filepath.ToSlash]: the separator is already '/'. *)
Definition ToSlash (path : string) : string := path.

End Filepath.

(* ================================================================== *)
(** ** Errors and the panic/recover discipline *)

(** The values the handlers panic with. *)
Inductive error : Type :=
| InvalidPath          (* errors.New("invalid path") *)
| ZipPathMissing       (* "zip path doesnt exist" *)
| SymlinkInZip         (* errors.New("symlink not allowed in zip downloads") *)
| IndexOutOfRange      (* run-time panic of an index expression *)
| FsError.             (* a non-nil error given to check *)

(** A computation that returns a value or panics. *)
Inductive result (A : Type) : Type :=
| Ok (a : A)
| Panic (e : error).
Arguments Ok {A} a.
Arguments Panic {A} e.

(** A handler: it runs on a state [S] (what it has done to the outside
    world so far) and returns or panics; what was done before a panic
    stays done. *)
Definition M (S A : Type) : Type := S -> S * result A.

Definition ret {S A : Type} (a : A) : M S A := fun s => (s, Ok a).

Definition panic {S A : Type} (e : error) : M S A := fun s => (s, Panic e).

Definition bind {S A B : Type} (m : M S A) (k : A -> M S B) : M S B :=
  fun s =>
    match m s with
    | (s', Ok a) => k a s'
    | (s', Panic e) => (s', Panic e)
    end.

Notation "x <- m ;; k" := (bind m (fun x => k))
  (at level 61, m at next level, right associativity).

(** A computation without effect on the state. *)
Definition lift {S A : Type} (r : result A) : M S A := fun s => (s, r).

(** [check]: panic on a non-nil error. *)
Definition check {S : Type} (err : bool) : M S unit :=
  if err then panic FsError else ret tt.

(** The answer a handler leaves behind; [exitPath], deferred by every
    handler, turns a panic into status 500 with the body "error". *)
Inductive response : Type :=
| Written (body : string)
| ServerError.

Definition exitPath {S : Type} (m : M S string) : S -> S * response :=
  fun s =>
    match m s with
    | (s', Ok body) => (s', Written body)
    | (s', Panic _) => (s', ServerError)
    end.

(* ================================================================== *)
(** ** Configuration and [enforcePath] *)

(** The package-level variables read by the resolver, and the two answers
    it takes from the operating system. *)
Record Config : Type := {
  initPath   : string;            (* the served directory *)
  extraPath  : string;            (* flag -prefix *)
  skipHidden : bool;              (* flag -k *)
  symlinks   : bool;              (* flag -symlinks *)
  getwd      : option string;     (* os.Getwd *)
  EvalSymlinks : string -> string (* first result of filepath.EvalSymlinks;
                                     "" when it fails *)
}.

Import Strings.

(** The path computed by the first two lines of [enforcePath], with the
    error flag of [filepath.Abs]. *)
Definition absPath (c : Config) (p : string) : string * bool :=
  let joined := Filepath.Join [initPath c; TrimPrefix p (extraPath c)] in
  Filepath.Abs (getwd c) joined.

(** [enforcePath]. *)
Definition enforcePath (c : Config) (p : string) : result string :=
  let '(fp, err) := absPath c p in
  let sl := EvalSymlinks c fp in
  if err
     || negb (HasPrefix fp (initPath c))
     || (skipHidden c && Contains p "/.")
     || (negb (symlinks c) && (0 <? String.length sl)%nat
         && negb (HasPrefix sl (initPath c)))
  then Panic InvalidPath
  else Ok fp.

(** The test of [enforcePath], one disjunct after the other. *)
Definition rejects (c : Config) (p : string) : bool :=
  let '(fp, err) := absPath c p in
  let sl := EvalSymlinks c fp in
  err
  || negb (HasPrefix fp (initPath c))
  || (skipHidden c && Contains p "/.")
  || (negb (symlinks c) && (0 <? String.length sl)%nat
      && negb (HasPrefix sl (initPath c))).

(** [fp] names the directory [root] or something below it. *)
Definition within (root fp : string) : bool :=
  (fp =? root) || HasPrefix fp (root ++ "/").

(** A path element of the raw path starts with '.'. *)
Definition hasHiddenElem (p : string) : bool :=
  existsb (fun e => HasPrefix e ".") (Split p Filepath.Separator).

(** The configuration with one flag changed. *)
Definition withSymlinks (b : bool) (c : Config) : Config := {|
  initPath := initPath c; extraPath := extraPath c;
  skipHidden := skipHidden c; symlinks := b;
  getwd := getwd c; EvalSymlinks := EvalSymlinks c
|}.

Definition withSkipHidden (b : bool) (c : Config) : Config := {|
  initPath := initPath c; extraPath := extraPath c;
  skipHidden := b; symlinks := symlinks c;
  getwd := getwd c; EvalSymlinks := EvalSymlinks c
|}.

Definition withExtraPath (prefix : string) (c : Config) : Config := {|
  initPath := initPath c; extraPath := prefix;
  skipHidden := skipHidden c; symlinks := symlinks c;
  getwd := getwd c; EvalSymlinks := EvalSymlinks c
|}.

(* ================================================================== *)
(** ** The handler [rpc] *)

(** The decoded request body.  [json.Unmarshal]'s error is dropped by the
    handler, so a body that does not decode leaves the zero value: an
    empty [Call] and no [Args]. *)
Record rpcCall : Type := {
  Call : string;
  Args : list string
}.

(** The calls into package [os] that [rpc] makes. *)
Inductive osCall : Type :=
| MkdirAll (path : string)
| Rename (oldpath newpath : string)
| RemoveAll (path : string).

Section Rpc.

(** The file system, and what each call does to it: the new file system
    and whether the call returned an error. *)
Variable FS : Type.
Variable osApply : osCall -> FS -> FS * bool.

(** The outside world of the handler: the file system and the calls
    made on it so far, oldest first. *)
Record World : Type := {
  files : FS;
  calls : list osCall
}.

Definition os (op : osCall) : M World bool :=
  fun w =>
    let '(fs', err) := osApply op (files w) in
    ({| files := fs'; calls := (calls w ++ [op])%list |}, Ok err).

(** An index expression [args[i]]. *)
Definition index (args : list string) (i : nat) : result string :=
  match nth_error args i with
  | Some a => Ok a
  | None => Panic IndexOutOfRange
  end.

(** The body of [rpc], after the request body is decoded.  The operands
    of each call are evaluated from left to right before the call. *)
Definition rpcBody (c : Config) (rpc : rpcCall) : M World string :=
  err <- (if Call rpc =? "mkdirp" then
            a0 <- lift (index (Args rpc) 0) ;;
            p0 <- lift (enforcePath c a0) ;;
            os (MkdirAll p0)
          else if Call rpc =? "mv" then
            a0 <- lift (index (Args rpc) 0) ;;
            p0 <- lift (enforcePath c a0) ;;
            a1 <- lift (index (Args rpc) 1) ;;
            p1 <- lift (enforcePath c a1) ;;
            os (Rename p0 p1)
          else if Call rpc =? "rm" then
            a0 <- lift (index (Args rpc) 0) ;;
            p0 <- lift (enforcePath c a0) ;;
            os (RemoveAll p0)
          else ret false) ;;
  _ <- check err ;;
  ret "ok".

(** [rpc], with its deferred [exitPath]. *)
Definition rpc (c : Config) (call : rpcCall) : World -> World * response :=
  exitPath (rpcBody c call).

End Rpc.

(* ================================================================== *)
(** ** The archive walk of [zipRPC] *)

(** What [os.Lstat] can find at a path.  The children of a directory are
    listed in the order [filepath.Walk] reads them (sorted by name);
    names are plain file names (no separator, not "." or ".."). *)
#[warnings="-register-all"]
Inductive node : Type :=
| File (content : string)
| Symlink (target : string)
| Dir (children : list (string * node)).

Module Zip.
Inductive method : Type := Store | Deflate.

(** An entry of the archive: the header fields the handler sets, and
    the bytes copied after it. *)
Record entry : Type := {
  Name : string;
  Method : method;
  Body : string
}.
End Zip.

(** The visits of [filepath.Walk] below [root], in order: a node, then,
    for a directory, its children one after the other.  A visit is the
    list of names from the root to the node (the empty list for the root
    itself) and the node.  Every [Lstat] and directory read of the walk
    is taken to succeed. *)
Fixpoint walkOrder (names : list string) (n : node) : list (list string * node) :=
  (names, n) ::
  match n with
  | Dir children =>
      (fix each (cs : list (string * node)) : list (list string * node) :=
         match cs with
         | [] => []
         | (name, child) :: cs' =>
             (walkOrder (names ++ [name]) child ++ each cs')%list
         end) children
  | _ => []
  end.

(** [filepath.Rel(zipFullPath, path)] for a visited path: "." for the
    root, the names joined by the separator below it. *)
Definition Rel (names : list string) : string :=
  match names with
  | [] => "."
  | _ => Strings.Join names "/"
  end.

(** The function given to [filepath.Walk]; the state is the archive
    written so far. *)
Definition walkFn (c : Config) (visit : list string * node) : M (list Zip.entry) unit :=
  let '(names, f) := visit in
  match f with
  | Dir _ => ret tt
  | _ =>
      let rel := Rel names in
      if skipHidden c && HasPrefix rel "." then ret tt
      else match f with
           | Symlink _ => panic SymlinkInZip
           | File content =>
               fun archive =>
                 ((archive ++ [{| Zip.Name := Filepath.ToSlash rel;
                                  Zip.Method := Zip.Store;
                                  Zip.Body := content |}])%list, Ok tt)
           | Dir _ => ret tt
           end
  end.

(** The calls of the walk function, one visit after the other; the
    function returns nil or panics, so the walk stops only by a panic. *)
Fixpoint forEach {S A : Type} (fn : A -> M S unit) (visits : list A) : M S unit :=
  match visits with
  | [] => ret tt
  | v :: rest => _ <- fn v ;; forEach fn rest
  end.

Definition Walk (root : node) (fn : list string * node -> M (list Zip.entry) unit)
  : M (list Zip.entry) unit :=
  forEach fn (walkOrder [] root).

(** [zipRPC]: [lstat] is what [os.Lstat] finds at a path.  The result is
    the archive written to the client and how the handler ended. *)
Definition zipRPC (c : Config) (lstat : string -> option node) (zipPath : string)
  : list Zip.entry * result unit :=
  (zipFullPath <- lift (enforcePath c zipPath) ;;
   match lstat zipFullPath with
   | None => panic ZipPathMissing
   | Some root => Walk root (walkFn c)
   end) [].

(* ================================================================== *)
(** ** The rows of [replyList] *)

Record rowTemplate : Type := {
  Name : string;
  Href : string;
  Size : string;
  Ext : string
}.

Module Fs.
(** The methods of [fs.FileInfo] the lister calls. *)
Record FileInfo : Type := {
  Name : string;
  IsDir : bool;
  IsSymlink : bool;     (* Mode()&os.ModeSymlink != 0 *)
  Size : nat
}.
End Fs.

(** An element of the directory read by [ioutil.ReadDir], with the answer
    of the later [os.Stat] on it ([None] when that call fails). *)
Record dirElem : Type := {
  lstatInfo : Fs.FileInfo;
  statInfo : option Fs.FileInfo
}.

(** The extension column of a file row (lines 138-139). *)
Definition fileExt (mapLower : string -> string) (name : string) : string :=
  let sl := Split name "."%char in
  ToLower mapLower (last sl "").

Section ReplyList.

(** [url.PathEscape] and [humanize] (floating-point formatting) are
    left open, and so is the Unicode branch of [strings.ToLower]. *)
Variable PathEscape : string -> string.
Variable humanize : nat -> string.
Variable mapLower : string -> string.

Record pageRows : Type := {
  RowsFiles : list rowTemplate;
  RowsFolders : list rowTemplate
}.

(** One turn of the loop over the directory's elements. *)
Definition addRow (c : Config) (p : pageRows) (d : dirElem) : pageRows :=
  if skipHidden c && HasPrefix (Fs.Name (lstatInfo d)) "." then p
  else if negb (symlinks c) && Fs.IsSymlink (lstatInfo d) then p
  else match statInfo d with
       | None => p
       | Some el =>
           let href := PathEscape (Fs.Name el) in
           let href := if Fs.IsDir el && HasPrefix href "/"
                       then TrimPrefix href "/" else href in
           if Fs.IsDir el then
             {| RowsFiles := RowsFiles p;
                RowsFolders := (RowsFolders p ++
                  [{| Name := Fs.Name el ++ "/"; Href := href;
                      Size := ""; Ext := "folder" |}])%list |}
           else
             {| RowsFiles := (RowsFiles p ++
                  [{| Name := Fs.Name el; Href := href;
                      Size := humanize (Fs.Size el);
                      Ext := fileExt mapLower (Fs.Name el) |}])%list;
                RowsFolders := RowsFolders p |}
       end.

(** The rows of [replyList] for the sorted elements [_files] of the
    directory requested as [path]. *)
Definition replyRows (c : Config) (path : string) (_files : list dirElem) : pageRows :=
  let path := if HasSuffix path "/" then path else path ++ "/" in
  let p := {| RowsFiles := [];
              RowsFolders := if path =? extraPath c then []
                             else [{| Name := "../"; Href := "../";
                                      Size := ""; Ext := "folder" |}] |} in
  fold_left (addRow c) _files p.

End ReplyList.

(* ================================================================== *)
(** ** Package [net/url]: path segments *)

Module Url.

(** [ishex]. *)
Definition ishex (c : ascii) : bool :=
  let n := nat_of_ascii c in
  ((48 <=? n) && (n <=? 57) || (97 <=? n) && (n <=? 102)
   || (65 <=? n) && (n <=? 70))%nat.

(** [unhex]. *)
Definition unhex (c : ascii) : nat :=
  let n := nat_of_ascii c in
  if ((48 <=? n) && (n <=? 57))%nat then n - 48
  else if ((97 <=? n) && (n <=? 102))%nat then n - 97 + 10
  else if ((65 <=? n) && (n <=? 70))%nat then n - 65 + 10
  else 0.

(** [url.PathUnescape]: every "%XY" becomes the byte with the hexadecimal
    digits X and Y; a '%' that two hexadecimal digits do not follow is an
    error ([None]).  A '+' stays a '+'. *)
Fixpoint PathUnescape (s : string) : option string :=
  match s with
  | EmptyString => Some EmptyString
  | String c rest =>
      if Ascii.eqb c "%" then
        match rest with
        | String h1 (String h2 rest') =>
            if ishex h1 && ishex h2 then
              option_map (String (ascii_of_nat (16 * unhex h1 + unhex h2)))
                         (PathUnescape rest')
            else None
        | _ => None
        end
      else option_map (String c) (PathUnescape rest)
  end.

(** [shouldEscape(c, encodePathSegment)]: letters, digits and the marks
    - _ . ~ are kept, and of the reserved characters $ & + : = @; all
    other bytes are escaped, the separator '/' among them. *)
Definition shouldEscape (c : ascii) : bool :=
  let n := nat_of_ascii c in
  if ((97 <=? n) && (n <=? 122) || (65 <=? n) && (n <=? 90)
      || (48 <=? n) && (n <=? 57))%nat then false
  else if existsb (Ascii.eqb c) ["-"; "_"; "."; "~"]%char then false
  else if existsb (Ascii.eqb c) ["$"; "&"; "+"; ":"; "="; "@"]%char then false
  else true.

(** The digit of [upperhex] at an index below 16. *)
Definition upperhex (n : nat) : ascii :=
  if (n <? 10)%nat then ascii_of_nat (48 + n) else ascii_of_nat (55 + n).

(** [url.PathEscape]. *)
Fixpoint PathEscape (s : string) : string :=
  match s with
  | EmptyString => EmptyString
  | String c rest =>
      if shouldEscape c then
        String "%" (String (upperhex (nat_of_ascii c / 16))
                      (String (upperhex (nat_of_ascii c mod 16)) (PathEscape rest)))
      else String c (PathEscape rest)
  end.

End Url.

(* ================================================================== *)
(** ** [main]: the served directory *)

(** Lines 284-290 of [main]: the served directory is the first argument
    left after the flags, "." when there is none, made absolute by
    [filepath.Abs]; a failure there stops the program. *)
Definition mainInitPath (wd : option string) (args : list string) : result string :=
  let initPath := match args with
                  | a :: _ => a
                  | [] => "."
                  end in
  let '(abs, err) := Filepath.Abs wd initPath in
  if err then Panic FsError else Ok abs.

(* ================================================================== *)
(** ** The handler [doContent] *)

(** What [doContent] ends in. *)
Inductive contentReply : Type :=
| Redirect (location : string)          (* http.Redirect to the prefix *)
| Listing (fullPath path : string)      (* replyList(w, r, fullPath, path) *)
| ServeFile                             (* handler.ServeHTTP(w, r) *)
| ContentError.                         (* a panic, answered by exitPath *)

Section DoContent.

(** [html.UnescapeString], and [os.Stat] as whether the path is a
    directory ([None] when the call fails). *)
Variable UnescapeString : string -> string.
Variable stat : string -> option bool.

Definition doContent (c : Config) (urlPath : string) : contentReply :=
  if negb (HasPrefix urlPath (extraPath c)) then Redirect (extraPath c)
  else
    let path := UnescapeString urlPath in
    match enforcePath c path with
    | Panic _ => ContentError
    | Ok fullPath =>
        match stat fullPath with
        | None => ContentError
        | Some true => Listing fullPath path
        | Some false => ServeFile
        end
    end.

End DoContent.

(* ================================================================== *)
(** ** The handler [upload] *)

(** What [reader.NextPart] returns: a part, [io.EOF] (and a nil part),
    or another error. *)
Inductive nextPart : Type :=
| PartBody (body : string)
| PartEOF
| PartError.

Section Upload.

(** The file system; [os.Create] on it (the file system after, and
    whether it returned an error); and [io.Copy(dst, part)] into the
    created file, whose returned error the handler drops (the file
    system after, and whether the call panicked; the part is nil after
    [io.EOF]). *)
Variable FS : Type.
Variable osCreate : string -> FS -> FS * bool.
Variable ioCopy : string -> option string -> FS -> FS * bool.

(** The body of [upload]: [header] is the gossa-path header,
    [readerErr] whether [r.MultipartReader] failed, [next] what
    [reader.NextPart] returned. *)
Definition uploadBody (c : Config) (header : string) (readerErr : bool)
           (next : nextPart) : M FS string :=
  path <- (match Url.PathUnescape header with
           | Some p => ret p
           | None => panic FsError
           end) ;;
  _ <- check readerErr ;;
  part <- (match next with
           | PartBody body => ret (Some body)
           | PartEOF => ret None
           | PartError => panic FsError
           end) ;;
  full <- lift (enforcePath c path) ;;
  err <- (fun fs => let '(fs', e) := osCreate full fs in (fs', Ok e)) ;;
  _ <- check err ;;
  _ <- (fun fs => let '(fs', panicked) := ioCopy full part fs in
                  (fs', if panicked then Panic FsError else Ok tt)) ;;
  ret "ok".

Definition upload (c : Config) (header : string) (readerErr : bool)
           (next : nextPart) : FS -> FS * response :=
  exitPath (uploadBody c header readerErr next).

End Upload.

(* ================================================================== *)
(** ** [humanize] *)

(** The unit table of [humanize]. *)
Definition units : list string := ["B"; "k"; "M"; "G"; "T"; "P"; "E"; "Z"; "Y"].

Section Humanize.

(** The conversion [float64(bytes)] and [strconv.FormatFloat(b, 'f', 1,
    64)] are left open.  The values of the loop are written as
    rationals: a binary floating-point number divided by 1024, a power
    of two, is exact as long as it does not underflow, and the loop
    divides numbers that are at least 1024 only. *)
Variable float64 : Z -> Q.
Variable FormatFloat : Q -> string.

(** The loop of [humanize], cut after [fuel] turns ([None]).  The index
    expression into the table panics out of range. *)
Fixpoint humanizeLoop (fuel : nat) (b : Q) (u : nat) : option (result string) :=
  match fuel with
  | O => None
  | S fuel' =>
      if negb (Qle_bool 1024 b) then
        Some (match nth_error units u with
              | Some unit => Ok (FormatFloat b ++ unit)
              | None => Panic IndexOutOfRange
              end)
      else humanizeLoop fuel' (b / 1024)%Q (S u)
  end.

Definition humanize (fuel : nat) (bytes : Z) : option (result string) :=
  humanizeLoop fuel (float64 bytes) 0.

End Humanize.

(** [b] after [k] divisions by 1024. *)
Fixpoint scaled (b : Q) (k : nat) : Q :=
  match k with
  | O => b
  | S k' => scaled (b / 1024)%Q k'
  end.

(** 1024 to the power [n]. *)
Fixpoint pow1024 (n : nat) : Q :=
  match n with
  | O => 1%Q
  | S n' => (1024 * pow1024 n')%Q
  end.

(* ================================================================== *)
(** ** Closed forms for the archive and the listing *)

(** The entry the walk function writes for a visit, if any. *)
Definition entryOf (c : Config) (visit : list string * node) : list Zip.entry :=
  match visit with
  | (names, File content) =>
      if skipHidden c && HasPrefix (Rel names) "." then []
      else [{| Zip.Name := Rel names; Zip.Method := Zip.Store; Zip.Body := content |}]
  | _ => []
  end.

(** The paths of a call into package [os]. *)
Definition osPaths (op : osCall) : list string :=
  match op with
  | MkdirAll path => [path]
  | Rename oldpath newpath => [oldpath; newpath]
  | RemoveAll path => [path]
  end.

(** The element as the loop of [replyList] goes on with it: [None] when
    it is skipped (hidden, a symlink not to be shown, or not to be
    stat'ed). *)
Definition shown (c : Config) (d : dirElem) : option Fs.FileInfo :=
  if skipHidden c && HasPrefix (Fs.Name (lstatInfo d)) "." then None
  else if negb (symlinks c) && Fs.IsSymlink (lstatInfo d) then None
  else statInfo d.

Definition shownFiles (c : Config) (_files : list dirElem) : list Fs.FileInfo :=
  flat_map (fun d => match shown c d with
                     | Some el => if Fs.IsDir el then [] else [el]
                     | None => []
                     end) _files.

Definition shownFolders (c : Config) (_files : list dirElem) : list Fs.FileInfo :=
  flat_map (fun d => match shown c d with
                     | Some el => if Fs.IsDir el then [el] else []
                     | None => []
                     end) _files.

(** The row that leads to the parent directory. *)
Definition parentRow : rowTemplate :=
  {| Name := "../"; Href := "../"; Size := ""; Ext := "folder" |}.

(** The rows of the listing, one per element shown. *)
Section ListingRows.

Variable PathEscape : string -> string.
Variable humanize : nat -> string.
Variable mapLower : string -> string.

Definition fileRowOf (el : Fs.FileInfo) : rowTemplate :=
  {| Name := Fs.Name el;
     Href := PathEscape (Fs.Name el);
     Size := humanize (Fs.Size el);
     Ext := fileExt mapLower (Fs.Name el) |}.

Definition folderRowOf (el : Fs.FileInfo) : rowTemplate :=
  {| Name := Fs.Name el ++ "/";
     Href := (let href := PathEscape (Fs.Name el) in
              if HasPrefix href "/" then TrimPrefix href "/" else href);
     Size := "";
     Ext := "folder" |}.

End ListingRows.

(** ** Vocabulary of the path lemmas *)

(** An element that [Clean] keeps as it is. *)
Definition plainElem (e : string) : Prop :=
  e <> "" /\ e <> "." /\ e <> ".." /\ Contains e "/" = false.

(** The elements of a cleaned rooted path. *)
Definition rootedElems (path : string) : list string :=
  Filepath.cleanElems true [] (Split path Filepath.Separator).

(** An element that does not start with '.'. *)
Definition notHidden (e : string) : Prop := HasPrefix e "." = false.

(* ================================================================== *)
(** ** More samples *)

(** Files as a list of paths and contents, the newest first. *)
Definition listCreate (path : string) (fs : list (string * string))
  : list (string * string) * bool := ((path, "") :: fs, false).

Definition listCopy (path : string) (part : option string)
           (fs : list (string * string)) : list (string * string) * bool :=
  match part with
  | Some body => ((path, body) :: fs, false)
  | None => (fs, true)
  end.

(* ================================================================== *)
(** ** Sample configurations and trees *)

(** A served directory [/srv/data] with the default flags, on a file
    system without symbolic links in which every path exists. *)
Definition srvData : Config := {|
  initPath := "/srv/data";
  extraPath := "/";
  skipHidden := true;
  symlinks := false;
  getwd := Some "/";
  EvalSymlinks := fun fp => fp
|}.

(** /srv/data with a hidden symbolic link [/srv/data/.link] to [/etc],
    served with -symlinks. *)
Definition srvLinked : Config := {|
  initPath := "/srv/data";
  extraPath := "/";
  skipHidden := true;
  symlinks := true;
  getwd := Some "/";
  EvalSymlinks := fun fp =>
    if fp =? "/srv/data/.link" then "/etc"
    else if fp =? "/srv/data/link" then "/etc"
    else fp
|}.

(** A file system that only records what is asked of it; every call
    succeeds. *)
Definition recordingFS : osCall -> unit -> unit * bool := fun _ fs => (fs, false).

Definition freshWorld : World unit := {| files := tt; calls := [] |}.

(** A requested directory with a hidden file one level down. *)
Definition pubTree : node :=
  Dir [("a.txt", File "x"); ("sub", Dir [(".secret", File "s")])].

(** A regular file as [ReadDir] and [Stat] both report it. *)
Definition regular (name : string) (size : nat) : dirElem :=
  let info := {| Fs.Name := name; Fs.IsDir := false;
                 Fs.IsSymlink := false; Fs.Size := size |} in
  {| lstatInfo := info; statInfo := Some info |}.

(* ================================================================== *)
(** * Properties *)

(** ** [filepath.Clean] and the resolver on examples *)

Example clean_dotdot :
  Filepath.Clean "/srv/data/srv/data/../../etc/passwd" = "/srv/data/etc/passwd".
Proof. reflexivity. Qed.

Example clean_unrooted : Filepath.Clean "a/../../b/./c//" = "../b/c".
Proof. reflexivity. Qed.

Example clean_root_dotdot : Filepath.Clean "/../a" = "/a".
Proof. reflexivity. Qed.

Example enforce_ordinary : enforcePath srvData "/pub/a.txt" = Ok "/srv/data/pub/a.txt".
Proof. reflexivity. Qed.


(** ** Strings *)

Lemma HasPrefix_cutPrefix (s pre : string) :
  HasPrefix s pre = false -> cutPrefix s pre = None.
Proof.
  unfold HasPrefix. revert s.
  induction pre as [|a pre IH]; intros s H.
  - destruct s; discriminate.
  - destruct s as [|b s]; [reflexivity|].
    simpl in H |- *. destruct (ascii_dec a b) as [->|Hab].
    + rewrite Ascii.eqb_refl. now apply IH.
    + apply Ascii.eqb_neq in Hab. now rewrite Hab.
Qed.

Lemma TrimPrefix_absent (s pre : string) :
  HasPrefix s pre = false -> TrimPrefix s pre = s.
Proof.
  intros H. unfold TrimPrefix. now rewrite (HasPrefix_cutPrefix _ _ H).
Qed.

Lemma TrimPrefix_empty (s : string) : TrimPrefix s "" = s.
Proof. now destruct s. Qed.

Lemma length_pos_iff (s : string) : (0 <? String.length s)%nat = true <-> s <> "".
Proof.
  destruct s; simpl; split; intros H; try congruence; try discriminate; reflexivity.
Qed.

(** ** [enforcePath] *)

Lemma enforcePath_rejects (c : Config) (p : string) :
  enforcePath c p = if rejects c p then Panic InvalidPath else Ok (fst (absPath c p)).
Proof.
  unfold enforcePath, rejects. destruct (absPath c p) as [fp err]. reflexivity.
Qed.

(** The resolver has one error. *)
Lemma enforcePath_uniform (c : Config) (p : string) (e : error) :
  enforcePath c p = Panic e -> e = InvalidPath.
Proof.
  rewrite enforcePath_rejects. destruct (rejects c p); congruence.
Qed.

(** What an accepted path went through. *)
Lemma enforcePath_Ok_inv (c : Config) (p fp : string) :
  enforcePath c p = Ok fp ->
  absPath c p = (fp, false)
  /\ HasPrefix fp (initPath c) = true
  /\ skipHidden c && Contains p "/." = false
  /\ (symlinks c = false -> EvalSymlinks c fp <> "" ->
      HasPrefix (EvalSymlinks c fp) (initPath c) = true).
Proof.
  unfold enforcePath. destruct (absPath c p) as [fp' err].
  destruct err; simpl; [discriminate|].
  destruct (HasPrefix fp' (initPath c)) eqn:Hpre; simpl; [|discriminate].
  destruct (skipHidden c && Contains p "/.") eqn:Hhid; simpl; [discriminate|].
  destruct (symlinks c) eqn:Hsym; simpl.
  - intros [= <-]. repeat split; auto. discriminate.
  - destruct (0 <? String.length (EvalSymlinks c fp'))%nat eqn:Hlen; simpl.
    + destruct (HasPrefix (EvalSymlinks c fp') (initPath c)) eqn:Hsl; simpl;
        [|discriminate].
      intros [= <-]. repeat split; auto.
    + intros [= <-]. repeat split; auto.
      intros _ Hne. apply length_pos_iff in Hne. congruence.
Qed.

(** Every accepted path has the served directory as a string prefix. *)
Lemma enforcePath_prefix (c : Config) (p fp : string) :
  enforcePath c p = Ok fp -> HasPrefix fp (initPath c) = true.
Proof. intros H. now apply enforcePath_Ok_inv in H. Qed.

(** With [skipHidden], a raw path that contains "/." is rejected. *)
Lemma enforcePath_hidden (c : Config) (p : string) :
  skipHidden c = true -> Contains p "/." = true ->
  enforcePath c p = Panic InvalidPath.
Proof.
  intros Hk Hc. rewrite enforcePath_rejects. unfold rejects.
  destruct (absPath c p) as [fp err]. rewrite Hk, Hc. simpl.
  now rewrite !orb_true_r.
Qed.

(** A path whose absolute form lacks the served directory as a prefix is
    rejected. *)
Lemma enforcePath_no_prefix (c : Config) (p : string) :
  HasPrefix (fst (absPath c p)) (initPath c) = false ->
  enforcePath c p = Panic InvalidPath.
Proof.
  intros H. rewrite enforcePath_rejects. unfold rejects.
  destruct (absPath c p) as [fp err]. simpl in H. rewrite H. simpl.
  now rewrite orb_true_r.
Qed.

(** C1.  The raw path "../database/x", not rooted and so without "/.",
    is accepted under the default flags for the served directory
    /srv/data, and resolves to /srv/database/x: the served directory is a
    string prefix of it, but the path is not the directory or below it. *)
Theorem enforcePath_sibling_escape :
  enforcePath srvData "../database/x" = Ok "/srv/database/x"
  /\ HasPrefix "/srv/database/x" (initPath srvData) = true
  /\ within (initPath srvData) "/srv/database/x" = false.
Proof. repeat split. Qed.

(** C2.  With [skipHidden], a raw path whose first element is hidden and
    that does not begin with a separator is accepted: ".git/config" has
    a '.'-prefixed element but does not contain "/.". *)
Theorem enforcePath_leading_hidden_accepted :
  skipHidden srvData = true
  /\ hasHiddenElem ".git/config" = true
  /\ enforcePath srvData ".git/config" = Ok "/srv/data/.git/config".
Proof. repeat split. Qed.

(** C3, as stated, fails: a symbolic link inside the served directory
    that points outside it is still rejected with -symlinks when its raw
    path contains "/." and [skipHidden] is set. *)
Lemma symlinks_flag_not_sufficient :
  symlinks srvLinked = true
  /\ fst (absPath srvLinked "/.link") = "/srv/data/.link"
  /\ EvalSymlinks srvLinked "/srv/data/.link" = "/etc"
  /\ HasPrefix "/etc" (initPath srvLinked) = false
  /\ enforcePath srvLinked "/.link" = Panic InvalidPath.
Proof. repeat split. Qed.

(** C3, amended.  Take a raw path whose symlink-resolved form is not
    empty and lacks the served directory as a prefix.  Without -symlinks
    it is rejected.  With -symlinks the symlink test no longer rejects
    it: it is accepted exactly when it passes the other tests
    ([filepath.Abs] succeeded, the absolute path has the served directory
    as a prefix, and, under [skipHidden], the raw path has no "/."). *)
Theorem enforcePath_symlink_outside (c : Config) (p : string) :
  let fp := fst (absPath c p) in
  let sl := EvalSymlinks c fp in
  sl <> "" ->
  HasPrefix sl (initPath c) = false ->
  enforcePath (withSymlinks false c) p = Panic InvalidPath
  /\ (enforcePath (withSymlinks true c) p = Ok fp
      <-> snd (absPath c p) = false
          /\ HasPrefix fp (initPath c) = true
          /\ skipHidden c && Contains p "/." = false).
Proof.
  intros fp sl Hne Hout. subst fp sl.
  apply length_pos_iff in Hne.
  rewrite !enforcePath_rejects. unfold rejects.
  change (absPath (withSymlinks false c) p) with (absPath c p).
  change (absPath (withSymlinks true c) p) with (absPath c p).
  destruct (absPath c p) as [fp err]. simpl in *.
  rewrite Hne, Hout. simpl. split.
  - now rewrite !orb_true_r.
  - rewrite !orb_false_r.
    destruct err, (HasPrefix fp (initPath c)),
      (skipHidden c && Contains p "/."); simpl; split;
      try discriminate; try tauto; intros (? & ? & ?); discriminate.
Qed.

Lemma enforcePath_symlink_outside_witness :
  enforcePath (withSymlinks false srvLinked) "/link" = Panic InvalidPath
  /\ (enforcePath (withSymlinks true srvLinked) "/link" = Ok "/srv/data/link"
      <-> snd (absPath srvLinked "/link") = false
          /\ HasPrefix "/srv/data/link" (initPath srvLinked) = true
          /\ skipHidden srvLinked && Contains "/link" "/." = false).
Proof.
  apply (enforcePath_symlink_outside srvLinked "/link").
  - vm_compute. discriminate.
  - reflexivity.
Defined.

(** C4, as stated, fails: without [skipHidden] the request is resolved,
    to a path below the served directory. *)
Lemma passwd_resolved_without_skipHidden :
  initPath (withSkipHidden false srvData) = "/srv/data"
  /\ extraPath (withSkipHidden false srvData) = "/"
  /\ enforcePath (withSkipHidden false srvData) "/srv/data/../../etc/passwd"
     = Ok "/srv/data/etc/passwd".
Proof. repeat split. Qed.

(** The absolute form of the request of C4 under /srv/data: the prefix
    "/" is cut, the rest is joined below the served directory, and the
    two ".." climb back to it. *)
Lemma passwd_absPath (c : Config) :
  initPath c = "/srv/data" ->
  extraPath c = "/" ->
  absPath c "/srv/data/../../etc/passwd" = ("/srv/data/etc/passwd", false).
Proof.
  intros Hi He. unfold absPath. rewrite Hi, He. reflexivity.
Qed.

(** C4, amended.  For the served directory /srv/data and the prefix "/",
    the raw path /srv/data/../../etc/passwd is rejected when [skipHidden]
    is set (it contains "/."), whatever the other flags and the file
    system.  Without [skipHidden] it names /srv/data/etc/passwd, below
    the served directory, and only the symlink test can reject it. *)
Theorem passwd_rejected_with_skipHidden (c : Config) :
  initPath c = "/srv/data" ->
  extraPath c = "/" ->
  (skipHidden c = true ->
   enforcePath c "/srv/data/../../etc/passwd" = Panic InvalidPath)
  /\ (skipHidden c = false ->
      let sl := EvalSymlinks c "/srv/data/etc/passwd" in
      enforcePath c "/srv/data/../../etc/passwd"
      = if negb (symlinks c) && (0 <? String.length sl)%nat
           && negb (HasPrefix sl "/srv/data")
        then Panic InvalidPath
        else Ok "/srv/data/etc/passwd").
Proof.
  intros Hi He. split.
  - intros Hk. apply enforcePath_hidden; [exact Hk | reflexivity].
  - intros Hk. unfold enforcePath.
    rewrite (passwd_absPath c Hi He), Hi, Hk. reflexivity.
Qed.

Lemma passwd_rejected_with_skipHidden_witness :
  enforcePath srvData "/srv/data/../../etc/passwd" = Panic InvalidPath.
Proof.
  apply (proj1 (passwd_rejected_with_skipHidden srvData eq_refl eq_refl)).
  reflexivity.
Defined.

(** C8, as stated, fails: under the prefix /gossa/ a raw path that does
    not start with it is resolved all the same. *)
Lemma prefix_absent_accepted :
  HasPrefix "/pub/a.txt" (extraPath (withExtraPath "/gossa/" srvData)) = false
  /\ enforcePath (withExtraPath "/gossa/" srvData) "/pub/a.txt"
     = Ok "/srv/data/pub/a.txt".
Proof. repeat split. Qed.

(** C8, amended.  A raw path that does not start with the prefix is
    taken whole: it is resolved as it would be with no prefix
    configured, and the usual tests decide. *)
Theorem enforcePath_prefix_absent (c : Config) (p : string) :
  HasPrefix p (extraPath c) = false ->
  enforcePath c p = enforcePath (withExtraPath "" c) p.
Proof.
  intros H. unfold enforcePath, absPath, withExtraPath. simpl.
  now rewrite (TrimPrefix_absent _ _ H), TrimPrefix_empty.
Qed.

Lemma enforcePath_prefix_absent_witness :
  enforcePath (withExtraPath "/gossa/" srvData) "/pub/a.txt"
  = enforcePath (withExtraPath "" (withExtraPath "/gossa/" srvData)) "/pub/a.txt".
Proof.
  apply (enforcePath_prefix_absent (withExtraPath "/gossa/" srvData) "/pub/a.txt").
  reflexivity.
Defined.

(** ** [rpc] *)

Section RpcProperties.

Variable FS : Type.
Variable osApply : osCall -> FS -> FS * bool.

(** C6, amended.  A request whose call is none of mkdirp, mv and rm
    makes no call into package [os], leaves the file system as it is
    and is answered "ok". *)
Theorem rpc_unknown_call (c : Config) (r : rpcCall) (w : World FS) :
  Call r <> "mkdirp" -> Call r <> "mv" -> Call r <> "rm" ->
  rpc osApply c r w = (w, Written "ok").
Proof.
  intros H1 H2 H3.
  apply String.eqb_neq in H1, H2, H3.
  unfold rpc, exitPath, rpcBody, bind.
  now rewrite H1, H2, H3.
Qed.

(** What a mv request with two arguments does, in full: both arguments
    go through [enforcePath], the source first; when either is rejected
    the request fails with no call made and the file system untouched;
    otherwise [os.Rename] is called once, on the two paths [enforcePath]
    returned, and the answer is "ok" unless that call fails. *)
Lemma mv_exact (c : Config) (r : rpcCall) (w : World FS)
      (a0 a1 : string) (rest : list string) :
  Call r = "mv" ->
  Args r = a0 :: a1 :: rest ->
  rpc osApply c r w
  = match enforcePath c a0, enforcePath c a1 with
    | Ok p0, Ok p1 =>
        let '(fs', err) := osApply (Rename p0 p1) (files w) in
        ({| files := fs'; calls := (calls w ++ [Rename p0 p1])%list |},
         if err then ServerError else Written "ok")
    | _, _ => (w, ServerError)
    end.
Proof.
  intros Hmv Hargs.
  unfold rpc, exitPath, rpcBody, bind, lift, index, os. rewrite Hmv, Hargs. simpl.
  destruct (enforcePath c a0) as [p0|e0]; [|reflexivity].
  destruct (enforcePath c a1) as [p1|e1]; [|reflexivity].
  destruct (osApply (Rename p0 p1) (files w)) as [fs' err].
  now destruct err.
Qed.

End RpcProperties.

(** C6, as stated, fails: an unknown call is answered "ok". *)
Lemma unknown_call_answered_ok :
  rpc recordingFS srvData {| Call := "chmod"; Args := ["/pub/a.txt"] |} freshWorld
  = (freshWorld, Written "ok").
Proof. reflexivity. Qed.

Lemma rpc_unknown_call_witness :
  rpc recordingFS srvData {| Call := "chmod"; Args := ["/pub/a.txt"] |} freshWorld
  = (freshWorld, Written "ok").
Proof.
  apply (rpc_unknown_call recordingFS srvData
           {| Call := "chmod"; Args := ["/pub/a.txt"] |} freshWorld);
    simpl; discriminate.
Defined.

(** C7.  A mv request whose destination argument is "../database/x" is
    not rejected: both arguments pass [enforcePath], [os.Rename] is
    called and moves the file to /srv/database/x, which is neither the
    served directory /srv/data nor below it, and the answer is "ok". *)
Theorem mv_moves_out_of_root :
  rpc recordingFS srvData
      {| Call := "mv"; Args := ["/pub/a.txt"; "../database/x"] |} freshWorld
  = ({| files := tt; calls := [Rename "/srv/data/pub/a.txt" "/srv/database/x"] |},
     Written "ok")
  /\ enforcePath srvData "../database/x" = Ok "/srv/database/x"
  /\ within (initPath srvData) "/srv/database/x" = false.
Proof. repeat split. Qed.

(** ** The archive walk *)

Lemma walkFn_panic (c : Config) (v : list string * node)
      (s s' : list Zip.entry) (e : error) :
  walkFn c v s = (s', Panic e) -> s' = s /\ e = SymlinkInZip.
Proof.
  destruct v as [names f]. unfold walkFn, ret, panic.
  destruct f; try (destruct (skipHidden c && HasPrefix (Rel names) "."));
    intros [= <- <-] || intros [= <-] || intros [= ]; auto; discriminate.
Qed.

Lemma walkFn_symlink (c : Config) (names : list string) (target : string)
      (s : list Zip.entry) :
  skipHidden c && HasPrefix (Rel names) "." = false ->
  walkFn c (names, Symlink target) s = (s, Panic SymlinkInZip).
Proof. intros H. unfold walkFn. now rewrite H. Qed.

(** A walk is cut at the first visit that panics. *)
Lemma forEach_cut {S A : Type} (fn : A -> M S unit) (e : error)
      (before after : list A) (v : A) :
  (forall s, fn v s = (s, Panic e)) ->
  (forall v' s s' e', fn v' s = (s', Panic e') -> e' = e) ->
  forall s, forEach fn (before ++ v :: after) s = (fst (forEach fn before s), Panic e).
Proof.
  intros Hv Hall. induction before as [|b before IH]; intros s; simpl.
  - unfold bind. now rewrite Hv.
  - unfold bind. destruct (fn b s) as [s1 [u|e1]] eqn:Eb.
    + apply IH.
    + simpl. now rewrite (Hall _ _ _ _ Eb).
Qed.

(** What holds of a state that the visits only extend by steps that
    keep it. *)
Lemma forEach_invariant {S A : Type} (fn : A -> M S unit) (P : S -> Prop)
      (visits : list A) :
  (forall v s, In v visits -> P s -> P (fst (fn v s))) ->
  forall s, P s -> P (fst (forEach fn visits s)).
Proof.
  induction visits as [|v visits IH]; intros Hstep s Hs; simpl; [exact Hs|].
  unfold bind. specialize (Hstep v s (or_introl eq_refl) Hs) as Hv.
  destruct (fn v s) as [s1 [u|e1]]; simpl in *; [|exact Hv].
  apply IH; [|exact Hv]. intros v' s' Hin. apply Hstep. now right.
Qed.

(** Every entry of the archive is a regular file of the walk that the
    hidden test let through, stored without compression under its
    slash-separated path relative to the requested directory. *)
Lemma zip_entries (c : Config) (root : node) :
  Forall (fun e =>
            Zip.Method e = Zip.Store
            /\ exists names,
                In (names, File (Zip.Body e)) (walkOrder [] root)
                /\ Zip.Name e = Rel names
                /\ skipHidden c && HasPrefix (Rel names) "." = false)
         (fst (Walk root (walkFn c) [])).
Proof.
  unfold Walk. apply forEach_invariant; [|constructor].
  intros [names f] s Hin Hs. unfold walkFn, ret, panic.
  destruct f as [content|target|children]; simpl; try exact Hs;
    destruct (skipHidden c && HasPrefix (Rel names) ".") eqn:Hhid; simpl;
    try exact Hs.
  apply Forall_app. split; [exact Hs|]. constructor; [|constructor].
  simpl. split; [reflexivity|]. exists names. auto.
Qed.

(** C5.  Under [skipHidden] the archive of a directory holds the hidden
    file sub/.secret: the test looks at the first byte of the relative
    path only. *)
Theorem zip_nested_hidden_included :
  skipHidden srvData = true
  /\ hasHiddenElem "sub/.secret" = true
  /\ zipRPC srvData (fun _ => Some pubTree) "/pub"
     = ([{| Zip.Name := "a.txt"; Zip.Method := Zip.Store; Zip.Body := "x" |};
         {| Zip.Name := "sub/.secret"; Zip.Method := Zip.Store; Zip.Body := "s" |}],
        Ok tt).
Proof. repeat split. Qed.

(** C9, as stated, fails: under [skipHidden] a symbolic link whose
    relative path starts with '.' is passed over, and the walk goes on to
    write the entries after it. *)
Lemma zip_hidden_symlink_skipped :
  zipRPC srvData
         (fun _ => Some (Dir [(".link", Symlink "/etc"); ("a.txt", File "x")]))
         "/pub"
  = ([{| Zip.Name := "a.txt"; Zip.Method := Zip.Store; Zip.Body := "x" |}], Ok tt).
Proof. reflexivity. Qed.

(** C9, amended.  When the walk of the requested tree meets a symbolic
    link that the hidden test does not pass over ([skipHidden] is off, or
    its relative path does not start with '.'), the handler panics with
    the symlink error, and the archive is what the visits before the
    link had written: nothing is written for the link or after it. *)
Theorem zip_symlink_aborts (c : Config) (lstat : string -> option node)
        (zipPath zipFullPath : string) (root : node)
        (names : list string) (target : string) :
  enforcePath c zipPath = Ok zipFullPath ->
  lstat zipFullPath = Some root ->
  In (names, Symlink target) (walkOrder [] root) ->
  skipHidden c && HasPrefix (Rel names) "." = false ->
  exists before after,
    walkOrder [] root = (before ++ (names, Symlink target) :: after)%list
    /\ zipRPC c lstat zipPath
       = (fst (forEach (walkFn c) before []), Panic SymlinkInZip).
Proof.
  intros Hp Hl Hin Hvis.
  destruct (in_split _ _ Hin) as (before & after & Hw).
  exists before, after. split; [exact Hw|].
  unfold zipRPC, bind, lift. rewrite Hp, Hl. unfold Walk. rewrite Hw.
  apply forEach_cut.
  - intros s. now apply walkFn_symlink.
  - intros v' s s' e' H. now apply walkFn_panic in H.
Qed.

Lemma zip_symlink_aborts_witness :
  exists before after,
    walkOrder [] (Dir [("a.txt", File "x"); ("link", Symlink "/etc"); ("z.txt", File "z")])
    = (before ++ (["link"], Symlink "/etc") :: after)%list
    /\ zipRPC srvData
         (fun _ => Some (Dir [("a.txt", File "x"); ("link", Symlink "/etc");
                              ("z.txt", File "z")]))
         "/pub"
       = (fst (forEach (walkFn srvData) before []), Panic SymlinkInZip).
Proof.
  apply (zip_symlink_aborts srvData
           (fun _ => Some (Dir [("a.txt", File "x"); ("link", Symlink "/etc");
                                ("z.txt", File "z")]))
           "/pub" (zipFullPath := "/srv/data/pub")).
  - reflexivity.
  - reflexivity.
  - simpl. right. right. left. reflexivity.
  - reflexivity.
Defined.

(** ** The extension column *)

Lemma Split_nonempty (s : string) (sep : ascii) : Split s sep <> [].
Proof.
  destruct s as [|c s]; simpl; [discriminate|].
  destruct (Ascii.eqb c sep); [discriminate|].
  destruct (Split s sep); discriminate.
Qed.

(** The pieces of a string around one occurrence of the separator. *)
Lemma Split_app (pre suf : string) (sep : ascii) :
  Split (pre ++ String sep suf) sep = (Split pre sep ++ Split suf sep)%list.
Proof.
  induction pre as [|c pre IH]; simpl.
  - now rewrite Ascii.eqb_refl.
  - destruct (Ascii.eqb c sep); rewrite IH; [reflexivity|].
    destruct (Split pre sep) eqn:E; [now apply Split_nonempty in E|reflexivity].
Qed.

(** A string without the separator is its only piece. *)
Lemma Split_whole (s : string) (sep : ascii) :
  Contains s (String sep "") = false -> Split s sep = [s].
Proof.
  induction s as [|c s IH]; simpl; [reflexivity|].
  unfold HasPrefix. simpl.
  destruct (ascii_dec sep c) as [->|Hne].
  - destruct s; discriminate.
  - intros H. apply not_eq_sym, Ascii.eqb_neq in Hne. rewrite Hne.
    now rewrite IH.
Qed.

Lemma last_app_nonempty {A : Type} (l1 l2 : list A) (d : A) :
  l2 <> [] -> last (l1 ++ l2) d = last l2 d.
Proof.
  intros H. induction l1 as [|x l1 IH]; simpl; [reflexivity|].
  destruct (l1 ++ l2)%list eqn:E; [|exact IH].
  apply app_eq_nil in E. destruct E. contradiction.
Qed.

(** The extension is the lower-cased text after the last '.'; of a name
    without '.', it is the whole name, lower-cased. *)
Lemma fileExt_after_last_dot (mapLower : string -> string) (pre suf : string) :
  Contains suf "." = false ->
  fileExt mapLower (pre ++ "." ++ suf) = ToLower mapLower suf.
Proof.
  intros H. unfold fileExt. simpl.
  rewrite Split_app, last_app_nonempty by apply Split_nonempty.
  now rewrite (Split_whole _ _ H).
Qed.

Lemma fileExt_no_dot (mapLower : string -> string) (name : string) :
  Contains name "." = false -> fileExt mapLower name = ToLower mapLower name.
Proof. intros H. unfold fileExt. now rewrite (Split_whole _ _ H). Qed.

Section ReplyListProperties.

Variable PathEscape : string -> string.
Variable humanize : nat -> string.
Variable mapLower : string -> string.

Lemma addRow_ext (c : Config) (p : pageRows) (d : dirElem) :
  Forall (fun r => Ext r = fileExt mapLower (Name r)) (RowsFiles p) ->
  Forall (fun r => Ext r = fileExt mapLower (Name r))
         (RowsFiles (addRow PathEscape humanize mapLower c p d)).
Proof.
  intros H. unfold addRow.
  destruct (skipHidden c && HasPrefix (Fs.Name (lstatInfo d)) "."); [exact H|].
  destruct (negb (symlinks c) && Fs.IsSymlink (lstatInfo d)); [exact H|].
  destruct (statInfo d) as [el|]; [|exact H].
  destruct (Fs.IsDir el); simpl; [exact H|].
  apply Forall_app. split; [exact H|]. now constructor.
Qed.

Lemma replyRows_ext (c : Config) (path : string) (_files : list dirElem) :
  Forall (fun r => Ext r = fileExt mapLower (Name r))
         (RowsFiles (replyRows PathEscape humanize mapLower c path _files)).
Proof.
  unfold replyRows.
  set (p := {| RowsFiles := []; RowsFolders := _ |}).
  assert (Hp : Forall (fun r => Ext r = fileExt mapLower (Name r)) (RowsFiles p))
    by constructor.
  clearbody p. revert p Hp.
  induction _files as [|d ds IH]; intros p Hp; simpl; [exact Hp|].
  apply IH. now apply addRow_ext.
Qed.

(** C10, amended.  For every file row of the listing: when the name
    ends in a '.' followed by text without '.', the extension is that
    text, lower-cased by [strings.ToLower]; when the name has no '.',
    the extension is the whole name, lower-cased (and so not empty,
    unless the name is).  This holds whatever the Unicode case map
    does. *)
Theorem replyList_file_ext (c : Config) (path : string)
        (_files : list dirElem) (r : rowTemplate) :
  In r (RowsFiles (replyRows PathEscape humanize mapLower c path _files)) ->
  (forall pre suf, Name r = pre ++ "." ++ suf -> Contains suf "." = false ->
                   Ext r = ToLower mapLower suf)
  /\ (Contains (Name r) "." = false -> Ext r = ToLower mapLower (Name r)).
Proof.
  intros Hin.
  pose proof (replyRows_ext c path _files) as Hall.
  rewrite Forall_forall in Hall. specialize (Hall r Hin).
  rewrite Hall. split.
  - intros pre suf -> Hsuf. now apply fileExt_after_last_dot.
  - apply fileExt_no_dot.
Qed.

End ReplyListProperties.

(** On a name of ASCII bytes the Unicode case map plays no part: the
    file Makefile gets the extension "makefile" whatever it is. *)
Lemma Makefile_ext (mapLower : string -> string) :
  fileExt mapLower "Makefile" = "makefile".
Proof. reflexivity. Qed.

(** C10, as stated, fails: the row of a file named Makefile, which has
    no '.', reports the extension "makefile".  (The name is ASCII, so
    the Unicode case map, here the identity, is not consulted.) *)
Lemma ext_without_dot_not_empty :
  Contains "Makefile" "." = false
  /\ Strings.isASCII "Makefile" = true
  /\ RowsFiles (replyRows (fun s => s) (fun _ => "") (fun s => s) srvData "/pub/"
                          [regular "Makefile" 10])
     = [{| Name := "Makefile"; Href := "Makefile"; Size := ""; Ext := "makefile" |}].
Proof. repeat split. Qed.

Lemma replyList_file_ext_witness :
  (forall pre suf, "notes.TXT" = pre ++ "." ++ suf -> Contains suf "." = false ->
                   "txt" = ToLower (fun s => s) suf)
  /\ (Contains "notes.TXT" "." = false -> "txt" = ToLower (fun s => s) "notes.TXT").
Proof.
  apply (replyList_file_ext (fun s => s) (fun _ => "") (fun s => s) srvData "/pub/"
           [regular "notes.TXT" 10]
           {| Name := "notes.TXT"; Href := "notes.TXT"; Size := ""; Ext := "txt" |}).
  simpl. left. reflexivity.
Defined.

(* ================================================================== *)
(** * Further properties of the resolver *)

(** ** Pieces and joins *)

Lemma append_assoc (a b c : string) : (a ++ b) ++ c = a ++ (b ++ c).
Proof. induction a as [|x a IH]; simpl; [reflexivity | now rewrite IH]. Qed.

Lemma HasPrefix_cons (a b : ascii) (pre s : string) :
  HasPrefix (String b s) (String a pre) = Ascii.eqb a b && HasPrefix s pre.
Proof.
  unfold HasPrefix. cbn [prefix].
  destruct (ascii_dec a b) as [->|H].
  - now rewrite Ascii.eqb_refl.
  - apply Ascii.eqb_neq in H. now rewrite H.
Qed.

Lemma HasPrefix_nil (s : string) : HasPrefix s "" = true.
Proof. now destruct s. Qed.

Lemma HasPrefix_app (a b : string) : HasPrefix (a ++ b) a = true.
Proof.
  unfold HasPrefix. induction a as [|c a IH]; simpl.
  - now destruct b.
  - destruct (ascii_dec c c); [exact IH | contradiction].
Qed.

Lemma cutPrefix_Some (s pre : string) :
  HasPrefix s pre = true -> exists rest, cutPrefix s pre = Some rest /\ s = pre ++ rest.
Proof.
  unfold HasPrefix. revert s.
  induction pre as [|a pre IH]; intros s H.
  - exists s. now destruct s.
  - destruct s as [|b s]; [discriminate|]. simpl in H.
    destruct (ascii_dec a b) as [<-|]; [|discriminate].
    destruct (IH s H) as (rest & Hc & ->).
    exists rest. simpl. now rewrite Ascii.eqb_refl.
Qed.

Lemma HasPrefix_TrimPrefix (s pre : string) :
  HasPrefix s pre = true -> s = pre ++ TrimPrefix s pre.
Proof.
  intros H. destruct (cutPrefix_Some _ _ H) as (rest & Hc & Hs).
  unfold TrimPrefix. now rewrite Hc.
Qed.

(** No piece of a split holds the separator. *)
Lemma Split_no_sep (s : string) (sep : ascii) :
  Forall (fun e => Contains e (String sep "") = false) (Split s sep).
Proof.
  induction s as [|c s IH]; simpl.
  - repeat constructor.
  - destruct (Ascii.eqb c sep) eqn:E.
    + constructor; [reflexivity | exact IH].
    + destruct (Split s sep) as [|piece pieces]; [repeat constructor|].
      * simpl. unfold HasPrefix. simpl.
        destruct (ascii_dec sep c) as [->|]; [|reflexivity].
        now rewrite Ascii.eqb_refl in E.
      * inversion IH; subst. constructor; [|assumption].
        simpl. unfold HasPrefix. simpl.
        destruct (ascii_dec sep c) as [->|]; [|assumption].
        now rewrite Ascii.eqb_refl in E.
Qed.

(** Splitting what was joined gives the pieces back. *)
Lemma Split_Join (es : list string) (sep : ascii) :
  es <> [] ->
  Forall (fun e => Contains e (String sep "") = false) es ->
  Split (Strings.Join es (String sep "")) sep = es.
Proof.
  induction es as [|e es IH]; intros Hne Hall; [contradiction|].
  inversion Hall as [|? ? He Hes]; subst.
  destruct es as [|e' es].
  - simpl. now apply Split_whole.
  - change (Strings.Join (e :: e' :: es) (String sep ""))
      with (e ++ String sep (Strings.Join (e' :: es) (String sep ""))).
    rewrite Split_app, (Split_whole _ _ He), IH; [reflexivity | discriminate | exact Hes].
Qed.

Lemma Join_app (a b : list string) (sep : string) :
  a <> [] -> b <> [] ->
  Strings.Join (a ++ b) sep = Strings.Join a sep ++ sep ++ Strings.Join b sep.
Proof.
  intros Ha Hb. induction a as [|x a IH]; [contradiction|].
  destruct a as [|y a].
  - simpl. destruct b; [contradiction | reflexivity].
  - change (Strings.Join ((x :: y :: a) ++ b) sep)
      with (x ++ sep ++ Strings.Join ((y :: a) ++ b) sep).
    rewrite IH by discriminate.
    change (Strings.Join (x :: y :: a) sep) with (x ++ sep ++ Strings.Join (y :: a) sep).
    now rewrite !append_assoc.
Qed.

(** ** [filepath.Clean] on rooted paths *)

Lemma cleanElems_app (rooted : bool) (a b out : list string) :
  Filepath.cleanElems rooted out (a ++ b)
  = Filepath.cleanElems rooted (rev (Filepath.cleanElems rooted out a)) b.
Proof.
  revert out. induction a as [|e a IH]; intros out; simpl.
  - now rewrite rev_involutive.
  - destruct ((e =? "") || (e =? ".")); [apply IH|].
    destruct (e =? ".."); [|apply IH].
    destruct out as [|top out']; [destruct rooted; apply IH|].
    destruct (top =? ".."); [destruct rooted|]; apply IH.
Qed.

(** Elements that are neither "." nor ".." are pushed one after the
    other, the empty ones dropped. *)
Lemma cleanElems_no_dots (rooted : bool) (es out : list string) :
  Forall (fun e => e <> "." /\ e <> "..") es ->
  Filepath.cleanElems rooted out es
  = (rev out ++ filter (fun e => negb (e =? "")) es)%list.
Proof.
  revert out. induction es as [|e es IH]; intros out Hall; simpl.
  - now rewrite app_nil_r.
  - inversion Hall as [|? ? [H1 H2] Hes]; subst.
    apply String.eqb_neq in H1, H2. rewrite H1, H2, orb_false_r.
    destruct (e =? ""); simpl; [now apply IH|].
    rewrite IH by assumption. simpl. now rewrite <- app_assoc.
Qed.

Lemma filter_nonempty_plain (es : list string) :
  Forall plainElem es -> filter (fun e => negb (e =? "")) es = es.
Proof.
  induction 1 as [|e es (H & _) _ IH]; simpl; [reflexivity|].
  apply String.eqb_neq in H. rewrite H. simpl. now f_equal.
Qed.

(** On a rooted path the output of the element loop holds plain elements
    only. *)
Lemma cleanElems_plain (es out : list string) :
  Forall (fun e => Contains e "/" = false) es ->
  Forall plainElem out ->
  Forall plainElem (Filepath.cleanElems true out es).
Proof.
  revert out. induction es as [|e es IH]; intros out Hes Hout; simpl.
  - now apply Forall_rev.
  - inversion Hes as [|? ? He Hes']; subst.
    destruct (e =? "") eqn:E1; simpl; [now apply IH|].
    destruct (e =? ".") eqn:E2; simpl; [now apply IH|].
    destruct (e =? "..") eqn:E3.
    + destruct out as [|top out']; [now apply IH|].
      inversion Hout; subst.
      destruct (top =? ".."); now apply IH.
    + apply IH; [assumption|]. constructor; [|assumption].
      apply String.eqb_neq in E1, E2, E3. now repeat split.
Qed.

Lemma IsAbs_inv (path : string) :
  Filepath.IsAbs path = true -> exists rest, path = String "/" rest.
Proof.
  unfold Filepath.IsAbs. destruct path as [|c rest]; [discriminate|].
  rewrite HasPrefix_cons, HasPrefix_nil, andb_true_r.
  intros H. apply Ascii.eqb_eq in H. subst c. now exists rest.
Qed.

Lemma Clean_rooted (path : string) :
  Filepath.IsAbs path = true ->
  Filepath.Clean path = "/" ++ Strings.Join (rootedElems path) "/".
Proof.
  intros H. unfold Filepath.Clean, rootedElems. rewrite H.
  destruct (IsAbs_inv _ H) as [rest ->]. reflexivity.
Qed.

Lemma IsAbs_slash (s : string) : Filepath.IsAbs ("/" ++ s) = true.
Proof.
  unfold Filepath.IsAbs. change ("/" ++ s) with (String "/" s).
  now rewrite HasPrefix_cons, HasPrefix_nil.
Qed.

Lemma rootedElems_plain (path : string) : Forall plainElem (rootedElems path).
Proof.
  apply cleanElems_plain; [apply Split_no_sep | constructor].
Qed.

Lemma plain_no_sep (es : list string) :
  Forall plainElem es -> Forall (fun e => Contains e "/" = false) es.
Proof. apply Forall_impl. now intros e (_ & _ & _ & H). Qed.

Lemma plain_no_dots (es : list string) :
  Forall plainElem es -> Forall (fun e => e <> "." /\ e <> "..") es.
Proof. apply Forall_impl. now intros e (_ & H1 & H2 & _). Qed.

(** The pieces of a rooted path written from plain elements. *)
Lemma Split_rooted (es : list string) :
  Forall plainElem es ->
  Split ("/" ++ Strings.Join es "/") "/"
  = "" :: match es with [] => [""] | _ => es end.
Proof.
  intros H. simpl. f_equal. destruct es as [|e es]; [reflexivity|].
  apply Split_Join; [discriminate | now apply plain_no_sep].
Qed.

Lemma rootedElems_of_plain (es : list string) :
  Forall plainElem es -> rootedElems ("/" ++ Strings.Join es "/") = es.
Proof.
  intros H. unfold rootedElems, Filepath.Separator. rewrite (Split_rooted H).
  simpl. destruct es as [|e es]; [reflexivity|].
  rewrite cleanElems_no_dots by now apply plain_no_dots.
  now rewrite filter_nonempty_plain.
Qed.

(** Cleaning a cleaned rooted path changes nothing. *)
Lemma Clean_rooted_idempotent (path : string) :
  Filepath.IsAbs path = true ->
  Filepath.Clean (Filepath.Clean path) = Filepath.Clean path.
Proof.
  intros H. rewrite (Clean_rooted _ H).
  rewrite Clean_rooted by apply IsAbs_slash.
  now rewrite rootedElems_of_plain by apply rootedElems_plain.
Qed.

(** Below an absolute served directory the resolver's path is the clean
    form of the directory, a separator and the raw path without its
    prefix; the working directory plays no part. *)
Lemma absPath_rooted (c : Config) (p : string) :
  Filepath.IsAbs (initPath c) = true ->
  absPath c p
  = (Filepath.Clean (initPath c ++ "/" ++ TrimPrefix p (extraPath c)), false).
Proof.
  intros H. destruct (IsAbs_inv _ H) as [rest Hrest].
  unfold absPath. rewrite Hrest.
  change (Filepath.Join [String "/" rest; TrimPrefix p (extraPath c)])
    with (Filepath.Clean (String "/" rest ++ "/" ++ TrimPrefix p (extraPath c))).
  set (x := String "/" rest ++ "/" ++ TrimPrefix p (extraPath c)).
  assert (Hx : Filepath.IsAbs x = true) by apply IsAbs_slash.
  unfold Filepath.Abs.
  rewrite (Clean_rooted _ Hx) at 1. rewrite IsAbs_slash.
  now rewrite Clean_rooted_idempotent.
Qed.

(** ** What an accepted path looks like *)

Lemma enforcePath_closed_form (c : Config) (p fp : string) :
  Filepath.IsAbs (initPath c) = true ->
  enforcePath c p = Ok fp ->
  fp = Filepath.Clean (initPath c ++ "/" ++ TrimPrefix p (extraPath c)).
Proof.
  intros Habs Hok.
  apply enforcePath_Ok_inv in Hok. destruct Hok as (Hfp & _).
  rewrite (absPath_rooted c p Habs) in Hfp. congruence.
Qed.

(** Below an absolute served directory, an accepted path is the clean
    form of the directory joined with the raw path without its prefix:
    it is absolute, cleaning it again changes nothing, and none of its
    elements is "." or "..". *)
Theorem enforcePath_clean (c : Config) (p fp : string) :
  Filepath.IsAbs (initPath c) = true ->
  enforcePath c p = Ok fp ->
  fp = Filepath.Clean (initPath c ++ "/" ++ TrimPrefix p (extraPath c))
  /\ Filepath.IsAbs fp = true
  /\ Filepath.Clean fp = fp
  /\ ~ In ".." (Split fp "/")
  /\ ~ In "." (Split fp "/").
Proof.
  intros Habs Hok.
  pose proof (enforcePath_closed_form c p Habs Hok) as E.
  set (x := initPath c ++ "/" ++ TrimPrefix p (extraPath c)) in *.
  assert (Hx : Filepath.IsAbs x = true).
  { destruct (IsAbs_inv _ Habs) as [rest Hrest]. unfold x. rewrite Hrest.
    apply IsAbs_slash. }
  split; [exact E|]. subst fp.
  split; [rewrite (Clean_rooted _ Hx); apply IsAbs_slash|].
  split; [now apply Clean_rooted_idempotent|].
  rewrite (Clean_rooted _ Hx).
  pose proof (rootedElems_plain x) as Hplain.
  rewrite (Split_rooted Hplain).
  assert (Hno : forall d, (d = "." \/ d = "..") ->
                          ~ In d ("" :: match rootedElems x with
                                        | [] => [""]
                                        | _ => rootedElems x
                                        end)).
  { intros d Hd [H|H]; [destruct Hd; subst d; discriminate|].
    destruct (rootedElems x) as [|e es] eqn:E.
    - destruct H as [H|[]]. destruct Hd; subst d; discriminate.
    - rewrite Forall_forall in Hplain. destruct (Hplain d H) as (_ & H1 & H2 & _).
      destruct Hd; contradiction. }
  split; apply Hno; auto.
Qed.

Lemma enforcePath_clean_witness :
  "/srv/data/pub/a.txt"
  = Filepath.Clean (initPath srvData ++ "/" ++ TrimPrefix "/pub/./x/../a.txt" (extraPath srvData))
  /\ Filepath.IsAbs "/srv/data/pub/a.txt" = true
  /\ Filepath.Clean "/srv/data/pub/a.txt" = "/srv/data/pub/a.txt"
  /\ ~ In ".." (Split "/srv/data/pub/a.txt" "/")
  /\ ~ In "." (Split "/srv/data/pub/a.txt" "/").
Proof.
  apply (enforcePath_clean (withSkipHidden false srvData) "/pub/./x/../a.txt");
    reflexivity.
Defined.

(** Relaxing the flags never turns an accepted path away, and does not
    change the path returned: what is accepted under some setting of -k
    and -symlinks is accepted, with the same result, with hidden files
    shown and symlinks followed. *)
Theorem enforcePath_relaxed (c : Config) (p fp : string) :
  enforcePath c p = Ok fp ->
  enforcePath (withSymlinks true (withSkipHidden false c)) p = Ok fp.
Proof.
  intros H. apply enforcePath_Ok_inv in H. destruct H as (Hfp & Hpre & _).
  unfold enforcePath.
  change (absPath (withSymlinks true (withSkipHidden false c)) p) with (absPath c p).
  rewrite Hfp. simpl. now rewrite Hpre.
Qed.

Lemma enforcePath_relaxed_witness :
  enforcePath (withSymlinks true (withSkipHidden false srvData)) "/pub/a.txt"
  = Ok "/srv/data/pub/a.txt".
Proof. apply (enforcePath_relaxed srvData "/pub/a.txt"). reflexivity. Defined.

(** ** Raw paths under the route prefix *)

Lemma Contains_app_r (a b sub : string) :
  Contains (a ++ b) sub = false -> Contains b sub = false.
Proof.
  induction a as [|x a IH]; [trivial|].
  change (String x a ++ b) with (String x (a ++ b)). cbn [Contains].
  destruct (HasPrefix (String x (a ++ b)) sub); [discriminate | exact IH].
Qed.

Lemma Contains_cons_false (x : ascii) (s sub : string) :
  Contains (String x s) sub = false ->
  HasPrefix (String x s) sub = false /\ Contains s sub = false.
Proof.
  cbn [Contains]. destruct (HasPrefix (String x s) sub); [discriminate | auto].
Qed.

Lemma Split_hd_notHidden (s : string) :
  notHidden s -> notHidden (hd "" (Split s "/")).
Proof.
  unfold notHidden. destruct s as [|x s]; [trivial|]. cbn [Split].
  destruct (Ascii.eqb x "/"); [reflexivity|].
  intros H. rewrite HasPrefix_cons, HasPrefix_nil, andb_true_r in H.
  destruct (Split s "/"); simpl hd;
    now rewrite HasPrefix_cons, HasPrefix_nil, andb_true_r.
Qed.

Lemma Split_tl_notHidden (s : string) :
  Contains s "/." = false -> Forall notHidden (tl (Split s "/")).
Proof.
  induction s as [|x s IH]; intros H; [constructor|].
  apply Contains_cons_false in H. destruct H as [Hp Hc].
  cbn [Split]. destruct (Ascii.eqb x "/") eqn:E.
  - apply Ascii.eqb_eq in E. subst x. simpl tl.
    rewrite HasPrefix_cons in Hp. simpl in Hp.
    pose proof (@Split_hd_notHidden s Hp) as Hh. specialize (IH Hc).
    destruct (Split s "/") as [|e es] eqn:Es; [constructor|].
    now constructor.
  - specialize (IH Hc). destruct (Split s "/") as [|e es]; [constructor | exact IH].
Qed.

(** After a separator of a raw path without "/.", no element starts with
    '.'. *)
Lemma Split_notHidden (rest : string) :
  Contains (String "/" rest) "/." = false -> Forall notHidden (Split rest "/").
Proof.
  intros H. apply Contains_cons_false in H. destruct H as [Hp Hc].
  rewrite HasPrefix_cons in Hp. simpl in Hp.
  pose proof (@Split_hd_notHidden rest Hp) as Hh.
  pose proof (@Split_tl_notHidden rest Hc) as Ht.
  destruct (Split rest "/") as [|e es]; [constructor | now constructor].
Qed.

Lemma notHidden_no_dots (es : list string) :
  Forall notHidden es -> Forall (fun e => e <> "." /\ e <> "..") es.
Proof.
  apply Forall_impl. intros e H. unfold notHidden in H.
  split; intros ->; discriminate.
Qed.

(** Under the route prefix and [skipHidden], no element of an accepted
    raw path, once the prefix is cut off, starts with '.'. *)
Lemma prefixed_elements_not_hidden (c : Config) (pre p fp : string) :
  skipHidden c = true ->
  extraPath c = pre ++ "/" ->
  HasPrefix p (extraPath c) = true ->
  enforcePath c p = Ok fp ->
  Forall notHidden (Split (TrimPrefix p (extraPath c)) "/").
Proof.
  intros Hk Hextra Hp Hok.
  apply enforcePath_Ok_inv in Hok. destruct Hok as (_ & _ & Hhid & _).
  rewrite Hk in Hhid. simpl in Hhid.
  set (rest := TrimPrefix p (extraPath c)) in *.
  apply Split_notHidden. apply (@Contains_app_r pre).
  rewrite (HasPrefix_TrimPrefix _ _ Hp) in Hhid. fold rest in Hhid.
  rewrite Hextra, append_assoc in Hhid. exact Hhid.
Qed.

(** A clean absolute directory joined with elements that do not start
    with '.' gives the directory or a path below it. *)
Lemma joined_below_root (c : Config) (p fp : string) :
  Filepath.IsAbs (initPath c) = true ->
  Filepath.Clean (initPath c) = initPath c ->
  fp = Filepath.Clean (initPath c ++ "/" ++ TrimPrefix p (extraPath c)) ->
  Forall notHidden (Split (TrimPrefix p (extraPath c)) "/") ->
  initPath c = "/" \/ within (initPath c) fp = true.
Proof.
  intros Habs Hclean Hfp Hrest.
  set (rest := TrimPrefix p (extraPath c)) in *.
  set (x := initPath c ++ "/" ++ rest) in *.
  assert (Hx : Filepath.IsAbs x = true).
  { destruct (IsAbs_inv _ Habs) as [r Hr]. unfold x. rewrite Hr. apply IsAbs_slash. }
  rewrite (Clean_rooted _ Hx) in Hfp.
  assert (Helems : rootedElems x
                   = (rootedElems (initPath c)
                      ++ filter (fun e => negb (e =? "")) (Split rest "/"))%list).
  { unfold rootedElems, x, Filepath.Separator.
    change (initPath c ++ "/" ++ rest) with (initPath c ++ String "/" rest).
    rewrite Split_app, cleanElems_app.
    rewrite cleanElems_no_dots by now apply notHidden_no_dots.
    now rewrite rev_involutive. }
  rewrite Helems in Hfp.
  rewrite (Clean_rooted _ Habs) in Hclean.
  destruct (rootedElems (initPath c)) as [|e es] eqn:Eroot.
  - left. now rewrite <- Hclean.
  - right. unfold within.
    destruct (filter (fun e0 => negb (e0 =? "")) (Split rest "/")) as [|b bs] eqn:Eb.
    + rewrite app_nil_r, Hclean in Hfp. subst fp. now rewrite String.eqb_refl.
    + rewrite Join_app in Hfp by discriminate.
      rewrite <- append_assoc, Hclean, <- append_assoc in Hfp. subst fp.
      now rewrite HasPrefix_app, orb_true_r.
Qed.


(** The sandbox, for raw paths that carry the route prefix.  Let the
    served directory be absolute and clean (as [main] leaves it), the
    route prefix end in a separator, and hidden files be skipped.  Then
    every accepted raw path that starts with the route prefix resolves
    to the served directory itself or to a path below it (under the
    directory followed by a separator): a byte-wise sibling such as
    /srv/database for /srv/data cannot be reached this way. *)
Theorem enforcePath_within (c : Config) (pre p fp : string) :
  Filepath.IsAbs (initPath c) = true ->
  Filepath.Clean (initPath c) = initPath c ->
  skipHidden c = true ->
  extraPath c = pre ++ "/" ->
  HasPrefix p (extraPath c) = true ->
  enforcePath c p = Ok fp ->
  initPath c = "/" \/ within (initPath c) fp = true.
Proof.
  intros Habs Hclean Hk Hextra Hp Hok.
  pose proof (enforcePath_closed_form c p Habs Hok) as Hfp.
  pose proof (@prefixed_elements_not_hidden c pre p fp Hk Hextra Hp Hok) as Hrest.
  now apply (@joined_below_root c p fp).
Qed.

Lemma enforcePath_within_witness :
  initPath srvData = "/" \/ within (initPath srvData) "/srv/data/pub/a.txt" = true.
Proof.
  apply (enforcePath_within srvData "" "/pub/a.txt"); reflexivity.
Defined.

(** ** The served directory after startup *)

(** [os.Getwd] returns a rooted path.  Then, when [main] gets past
    [filepath.Abs], the served directory is absolute and clean: the two
    conditions under which the resolver confines raw paths. *)
Theorem mainInitPath_absolute_clean (wd : option string) (args : list string)
        (dir : string) :
  (forall d, wd = Some d -> Filepath.IsAbs d = true) ->
  mainInitPath wd args = Ok dir ->
  Filepath.IsAbs dir = true /\ Filepath.Clean dir = dir.
Proof.
  intros Hwd. unfold mainInitPath, Filepath.Abs.
  set (arg := match args with a :: _ => a | [] => "." end).
  destruct (Filepath.IsAbs arg) eqn:Harg.
  - intros [= <-]. split.
    + rewrite (Clean_rooted _ Harg). apply IsAbs_slash.
    + now apply Clean_rooted_idempotent.
  - destruct wd as [d|]; [|discriminate].
    specialize (Hwd d eq_refl). destruct (IsAbs_inv _ Hwd) as [rest ->].
    change (Filepath.Join [String "/" rest; arg])
      with (Filepath.Clean (String "/" rest ++ "/" ++ arg)).
    assert (Hx : Filepath.IsAbs (String "/" rest ++ "/" ++ arg) = true)
      by apply IsAbs_slash.
    remember (String "/" rest ++ "/" ++ arg) as x eqn:Ex.
    intros H. assert (E : dir = Filepath.Clean x) by congruence. subst dir.
    split.
    + rewrite (Clean_rooted _ Hx). apply IsAbs_slash.
    + now apply Clean_rooted_idempotent.
Qed.

Lemma mainInitPath_absolute_clean_witness :
  Filepath.IsAbs "/home/u/share" = true
  /\ Filepath.Clean "/home/u/share" = "/home/u/share".
Proof.
  apply (@mainInitPath_absolute_clean (Some "/home/u") ["./share/"] "/home/u/share").
  - intros d [= <-]. reflexivity.
  - reflexivity.
Defined.

(** ** [doContent] *)

Section DoContentProperties.

Variable UnescapeString : string -> string.
Variable stat : string -> option bool.

(** Let the served directory be absolute and clean, the route prefix end
    in a separator and hidden files be skipped.  A request whose URL
    path [html.UnescapeString] leaves as it is (it holds no entity) is
    listed only at the served directory or below it; a URL path outside
    the route prefix is redirected to the prefix and never resolved. *)
Theorem doContent_listing_within (c : Config) (pre urlPath : string) :
  Filepath.IsAbs (initPath c) = true ->
  Filepath.Clean (initPath c) = initPath c ->
  skipHidden c = true ->
  extraPath c = pre ++ "/" ->
  UnescapeString urlPath = urlPath ->
  (HasPrefix urlPath (extraPath c) = false ->
   doContent UnescapeString stat c urlPath = Redirect (extraPath c))
  /\ (forall fullPath path,
         doContent UnescapeString stat c urlPath = Listing fullPath path ->
         path = urlPath
         /\ enforcePath c urlPath = Ok fullPath
         /\ (initPath c = "/" \/ within (initPath c) fullPath = true)).
Proof.
  intros Habs Hclean Hk Hextra Hun. unfold doContent. split.
  - intros H. now rewrite H.
  - intros fullPath path.
    destruct (HasPrefix urlPath (extraPath c)) eqn:Hp; simpl; [|discriminate].
    rewrite Hun.
    destruct (enforcePath c urlPath) as [fp|e] eqn:Hok; [|discriminate].
    destruct (stat fp) as [[|]|]; try discriminate.
    intros [= <- <-]. repeat split.
    apply (@joined_below_root c urlPath fp Habs Hclean).
    + now apply enforcePath_closed_form.
    + now apply (@prefixed_elements_not_hidden c pre urlPath fp).
Qed.

End DoContentProperties.

Lemma doContent_listing_within_witness :
  (HasPrefix "/pub/" (extraPath srvData) = false ->
   doContent (fun s => s) (fun _ => Some true) srvData "/pub/"
   = Redirect (extraPath srvData))
  /\ (forall fullPath path,
         doContent (fun s => s) (fun _ => Some true) srvData "/pub/"
         = Listing fullPath path ->
         path = "/pub/"
         /\ enforcePath srvData "/pub/" = Ok fullPath
         /\ (initPath srvData = "/" \/ within (initPath srvData) fullPath = true)).
Proof.
  apply (@doContent_listing_within (fun s => s) (fun _ => Some true) srvData "" "/pub/");
    reflexivity.
Defined.

(** ** Path segments: escaping and back *)

Lemma PathUnescape_escaped (c : ascii) (s : string) :
  Url.PathUnescape (Url.PathEscape (String c s))
  = option_map (String c) (Url.PathUnescape (Url.PathEscape s)).
Proof. destruct c as [[] [] [] [] [] [] [] []]; reflexivity. Qed.

Lemma unescape_escaped (s : string) :
  Url.PathUnescape (Url.PathEscape s) = Some s.
Proof.
  induction s as [|c s IH]; [reflexivity|].
  now rewrite PathUnescape_escaped, IH.
Qed.

Lemma escaped_no_separator (s : string) : Contains (Url.PathEscape s) "/" = false.
Proof.
  induction s as [|c s IH]; [reflexivity|].
  destruct c as [[] [] [] [] [] [] [] []]; exact IH.
Qed.

(** [url.PathUnescape] undoes [url.PathEscape], for every byte string,
    and an escaped string holds no separator: it is one path segment. *)
Theorem PathUnescape_PathEscape (s : string) :
  Url.PathUnescape (Url.PathEscape s) = Some s
  /\ Contains (Url.PathEscape s) "/" = false.
Proof.
  split; [apply unescape_escaped | apply escaped_no_separator].
Qed.

Lemma PathEscape_no_slash (s : string) : HasPrefix (Url.PathEscape s) "/" = false.
Proof.
  destruct s as [|c s]; [reflexivity|].
  destruct c as [[] [] [] [] [] [] [] []]; reflexivity.
Qed.

(** ** [upload] *)

Section UploadProperties.

Variable FS : Type.
Variable osCreate : string -> FS -> FS * bool.
Variable ioCopy : string -> option string -> FS -> FS * bool.

(** An upload either fails with the file system untouched, or creates
    one file: at the path [enforcePath] returned for the percent-decoded
    gossa-path header, a path that has the served directory as a prefix.
    Nothing is created when the header does not decode, the multipart
    reader or its first part fails, or the decoded path is rejected: the
    answer is the server error and the file system is as before.  In
    every other case the file is created at the accepted path and the
    part copied into it; the answer is "ok" unless [os.Create] fails or
    the copy panics. *)
Theorem upload_sandboxed (c : Config) (header : string) (readerErr : bool)
        (next : nextPart) (fs : FS) :
  (upload osCreate ioCopy c header readerErr next fs = (fs, ServerError)
   \/ exists p full,
       Url.PathUnescape header = Some p
       /\ enforcePath c p = Ok full
       /\ HasPrefix full (initPath c) = true
       /\ let created := fst (osCreate full fs) in
          let part := match next with PartBody body => Some body | _ => None end in
          fst (upload osCreate ioCopy c header readerErr next fs) = created
          \/ fst (upload osCreate ioCopy c header readerErr next fs)
             = fst (ioCopy full part created))
  /\ (Url.PathUnescape header = None
      \/ readerErr = true
      \/ next = PartError
      \/ (exists p, Url.PathUnescape header = Some p
                    /\ enforcePath c p = Panic InvalidPath) ->
      upload osCreate ioCopy c header readerErr next fs = (fs, ServerError))
  /\ (forall p full,
         Url.PathUnescape header = Some p ->
         readerErr = false ->
         next <> PartError ->
         enforcePath c p = Ok full ->
         let part := match next with PartBody body => Some body | _ => None end in
         upload osCreate ioCopy c header readerErr next fs
         = let '(created, createErr) := osCreate full fs in
           if createErr then (created, ServerError)
           else let '(copied, panicked) := ioCopy full part created in
                (copied, if panicked then ServerError else Written "ok")).
Proof.
  assert (Hexact : forall p full,
             Url.PathUnescape header = Some p ->
             readerErr = false ->
             next <> PartError ->
             enforcePath c p = Ok full ->
             upload osCreate ioCopy c header readerErr next fs
             = let '(created, createErr) := osCreate full fs in
               if createErr then (created, ServerError)
               else let '(copied, panicked) :=
                      ioCopy full (match next with
                                   | PartBody body => Some body
                                   | _ => None
                                   end) created in
                    (copied, if panicked then ServerError else Written "ok")).
  { intros p full Hp Hr Hn Hok.
    unfold upload, exitPath, uploadBody, bind, lift, check, ret, panic.
    rewrite Hp, Hr. destruct next as [body| |]; [| |contradiction]; simpl;
      rewrite Hok; simpl;
      (destruct (osCreate full fs) as [fs1 e1]; destruct e1; simpl; [reflexivity|]);
      match goal with
      | |- context [ioCopy full ?part fs1] =>
          destruct (ioCopy full part fs1) as [fs2 e2]; now destruct e2
      end. }
  assert (Hfail : Url.PathUnescape header = None
                  \/ readerErr = true
                  \/ next = PartError
                  \/ (exists p, Url.PathUnescape header = Some p
                                /\ enforcePath c p = Panic InvalidPath) ->
                  upload osCreate ioCopy c header readerErr next fs = (fs, ServerError)).
  { unfold upload, exitPath, uploadBody, bind, lift, check, ret, panic.
    intros [H|[H|[H|(p & Hp & H)]]].
    - now rewrite H.
    - rewrite H. now destruct (Url.PathUnescape header).
    - rewrite H. destruct (Url.PathUnescape header); [|reflexivity].
      now destruct readerErr.
    - rewrite Hp, H. destruct readerErr; [reflexivity|]. now destruct next. }
  split; [|split; [exact Hfail | exact Hexact]].
  destruct (Url.PathUnescape header) as [p|] eqn:Hp; [|left; apply Hfail; now left].
  destruct readerErr eqn:Hr; [left; apply Hfail; right; now left|].
  destruct (enforcePath c p) as [full|e] eqn:Hok.
  - assert (Hpre := enforcePath_prefix _ _ Hok).
    destruct next as [body| |] eqn:Hn;
      [| |left; apply Hfail; right; right; now left].
    + right. exists p, full. repeat split; auto. cbv zeta.
      rewrite (Hexact p full eq_refl eq_refl ltac:(discriminate) Hok).
      destruct (osCreate full fs) as [fs1 e1]. destruct e1; simpl; [now left|].
      destruct (ioCopy full (Some body) fs1) as [fs2 e2]. now right.
    + right. exists p, full. repeat split; auto. cbv zeta.
      rewrite (Hexact p full eq_refl eq_refl ltac:(discriminate) Hok).
      destruct (osCreate full fs) as [fs1 e1]. destruct e1; simpl; [now left|].
      destruct (ioCopy full None fs1) as [fs2 e2]. now right.
  - left. apply Hfail. right. right. right. exists p. split; [reflexivity|].
    assert (e = InvalidPath) by (eapply enforcePath_uniform; eassumption).
    subst e. exact Hok.
Qed.

(** The test for hidden paths looks at the decoded header: under
    [skipHidden], an upload whose header decodes to a path with "/." is
    refused before anything is created, however the path was escaped. *)
Theorem upload_decoded_hidden (c : Config) (header p : string) (readerErr : bool)
        (next : nextPart) (fs : FS) :
  skipHidden c = true ->
  Url.PathUnescape header = Some p ->
  Contains p "/." = true ->
  upload osCreate ioCopy c header readerErr next fs = (fs, ServerError).
Proof.
  intros Hk Hp Hc.
  unfold upload, exitPath, uploadBody, bind, lift, check, ret, panic.
  rewrite Hp, (enforcePath_hidden c p Hk Hc).
  destruct readerErr; [reflexivity|]. now destruct next.
Qed.

End UploadProperties.

(** An upload whose reader fails, through the theorem above: nothing
    is created. *)
Lemma upload_sandboxed_witness :
  upload listCreate listCopy srvData "/pub/a.txt" true (PartBody "x") []
  = ([], ServerError).
Proof.
  apply (proj1 (proj2 (upload_sandboxed listCreate listCopy srvData "/pub/a.txt"
                                         true (PartBody "x") []))).
  right. left. reflexivity.
Defined.

Lemma upload_decoded_hidden_witness :
  upload listCreate listCopy srvData "/pub%2F%2Egit%2Fconfig" false (PartBody "x") []
  = ([], ServerError).
Proof.
  apply (@upload_decoded_hidden _ listCreate listCopy srvData
           "/pub%2F%2Egit%2Fconfig" "/pub/.git/config"); reflexivity.
Defined.

(** ** [rpc]: what reaches package [os] *)

Section RpcSandbox.

Variable FS : Type.
Variable osApply : osCall -> FS -> FS * bool.

(** A request makes at most one call into package [os], and every path
    of that call is what [enforcePath] returned for an argument of the
    request: it has the served directory as a prefix. *)
Theorem rpc_sandboxed (c : Config) (r : rpcCall) (w : World FS) :
  exists made,
    calls (fst (rpc osApply c r w)) = (calls w ++ made)%list
    /\ (length made <= 1)%nat
    /\ forall op path,
        In op made -> In path (osPaths op) ->
        HasPrefix path (initPath c) = true
        /\ exists a, In a (Args r) /\ enforcePath c a = Ok path.
Proof.
  assert (Hnone : forall w' resp,
             rpc osApply c r w = (w', resp) -> calls w' = calls w ->
             exists made,
               calls (fst (rpc osApply c r w)) = (calls w ++ made)%list
               /\ (length made <= 1)%nat
               /\ forall op path,
                   In op made -> In path (osPaths op) ->
                   HasPrefix path (initPath c) = true
                   /\ exists a, In a (Args r) /\ enforcePath c a = Ok path).
  { intros w' resp E Hc. exists []. rewrite E. simpl. rewrite app_nil_r.
    split; [exact Hc|]. split; [lia|]. intros op path []. }
  assert (Hone : forall a0 p0 op,
             In a0 (Args r) -> enforcePath c a0 = Ok p0 -> osPaths op = [p0] ->
             forall op' path, In op' [op] -> In path (osPaths op') ->
             HasPrefix path (initPath c) = true
             /\ exists a, In a (Args r) /\ enforcePath c a = Ok path).
  { intros a0 p0 op0 Ha Hok Hop op' path Hop' Hin.
    destruct Hop' as [E|[]]. subst op'. rewrite Hop in Hin.
    destruct Hin as [E|[]]. subst path.
    split; [now apply enforcePath_prefix in Hok|]. now exists a0. }
  revert Hnone.
  unfold rpc, exitPath, rpcBody, bind, lift, index, os, check, ret, panic.
  destruct (Call r =? "mkdirp").
  { destruct (Args r) as [|a0 rest] eqn:Ea; simpl; [intros H; now eapply H|].
    destruct (enforcePath c a0) as [p0|e0] eqn:E0; [|intros H; now eapply H].
    intros _. exists [MkdirAll p0].
    destruct (osApply (MkdirAll p0) (files w)) as [fs' err].
    destruct err; simpl; (split; [reflexivity|]); (split; [lia|]);
      apply (Hone a0 p0); auto; now left. }
  destruct (Call r =? "mv").
  { destruct (Args r) as [|a0 rest] eqn:Ea; simpl; [intros H; now eapply H|].
    destruct (enforcePath c a0) as [p0|e0] eqn:E0; [|intros H; now eapply H].
    destruct rest as [|a1 rest]; simpl; [intros H; now eapply H|].
    destruct (enforcePath c a1) as [p1|e1] eqn:E1; [|intros H; now eapply H].
    intros _. exists [Rename p0 p1].
    assert (Hpaths : forall op path,
               In op [Rename p0 p1] -> In path (osPaths op) ->
               HasPrefix path (initPath c) = true
               /\ exists a, In a (a0 :: a1 :: rest) /\ enforcePath c a = Ok path).
    { intros op path [<-|[]] [<-|[<-|[]]].
      - split; [now apply enforcePath_prefix in E0|]. exists a0. split; [now left|auto].
      - split; [now apply enforcePath_prefix in E1|]. exists a1.
        split; [right; now left|auto]. }
    destruct (osApply (Rename p0 p1) (files w)) as [fs' err].
    destruct err; simpl; (split; [reflexivity|]); (split; [lia | exact Hpaths]). }
  destruct (Call r =? "rm").
  { destruct (Args r) as [|a0 rest] eqn:Ea; simpl; [intros H; now eapply H|].
    destruct (enforcePath c a0) as [p0|e0] eqn:E0; [|intros H; now eapply H].
    intros _. exists [RemoveAll p0].
    destruct (osApply (RemoveAll p0) (files w)) as [fs' err].
    destruct err; simpl; (split; [reflexivity|]); (split; [lia|]);
      apply (Hone a0 p0); auto; now left. }
  simpl. intros H. now eapply H.
Qed.

(** A known call that lacks an argument (mkdirp or rm without any, mv
    with fewer than two) is answered with the server error: the index
    expression panics, no call into package [os] is made and the file
    system stays as it is. *)
Theorem rpc_missing_argument (c : Config) (r : rpcCall) (w : World FS) :
  (Call r = "mkdirp" \/ Call r = "rm") /\ Args r = []
  \/ Call r = "mv" /\ (length (Args r) < 2)%nat ->
  rpc osApply c r w = (w, ServerError).
Proof.
  unfold rpc, exitPath, rpcBody, bind, lift, index, os, check, ret, panic.
  intros [[[H|H] Ha]|[H Ha]]; rewrite H; simpl.
  - now rewrite Ha.
  - now rewrite Ha.
  - destruct (Args r) as [|a0 [|a1 rest]]; simpl in *; [reflexivity| |lia].
    now destruct (enforcePath c a0).
Qed.

End RpcSandbox.

Lemma rpc_sandboxed_witness :
  exists made,
    calls (fst (rpc recordingFS srvData
                    {| Call := "mv"; Args := ["/pub/a.txt"; "/pub/b.txt"] |}
                    freshWorld))
    = (calls freshWorld ++ made)%list
    /\ (length made <= 1)%nat
    /\ forall op path,
        In op made -> In path (osPaths op) ->
        HasPrefix path (initPath srvData) = true
        /\ exists a, In a ["/pub/a.txt"; "/pub/b.txt"]
                     /\ enforcePath srvData a = Ok path.
Proof.
  exact (rpc_sandboxed recordingFS srvData
           {| Call := "mv"; Args := ["/pub/a.txt"; "/pub/b.txt"] |} freshWorld).
Defined.

Lemma rpc_missing_argument_witness :
  rpc recordingFS srvData {| Call := "mv"; Args := ["/pub/a.txt"] |} freshWorld
  = (freshWorld, ServerError).
Proof.
  apply (@rpc_missing_argument _ recordingFS srvData
           {| Call := "mv"; Args := ["/pub/a.txt"] |} freshWorld).
  right. split; [reflexivity | simpl; lia].
Defined.

(** ** The archive: what is in it *)

Lemma forEach_written (c : Config) (visits : list (list string * node))
      (s : list Zip.entry) :
  (forall names target,
      In (names, Symlink target) visits ->
      skipHidden c && HasPrefix (Rel names) "." = true) ->
  forEach (walkFn c) visits s = ((s ++ flat_map (entryOf c) visits)%list, Ok tt).
Proof.
  revert s. induction visits as [|[names f] visits IH]; intros s Hsym; simpl.
  - now rewrite app_nil_r.
  - assert (Hrest : forall names' target,
               In (names', Symlink target) visits ->
               skipHidden c && HasPrefix (Rel names') "." = true)
      by (intros; eapply Hsym; right; eassumption).
    unfold bind.
    destruct f as [content|target|children]; simpl.
    + destruct (skipHidden c && HasPrefix (Rel names) "."); simpl.
      * now apply IH.
      * rewrite IH by assumption. now rewrite <- app_assoc.
    + rewrite (Hsym names target (or_introl eq_refl)). simpl. now apply IH.
    + now apply IH.
Qed.

(** A download of a tree in which every symbolic link is passed over by
    the hidden test (there is none, or [skipHidden] is set and each one
    has a relative path that starts with '.') succeeds, and the archive
    holds, in the order of the walk, exactly one stored entry for each
    regular file that the hidden test lets through, under its relative
    path and with its content; directories, empty or not, give no
    entry. *)
Theorem zip_complete (c : Config) (lstat : string -> option node)
        (zipPath zipFullPath : string) (root : node) :
  enforcePath c zipPath = Ok zipFullPath ->
  lstat zipFullPath = Some root ->
  (forall names target,
      In (names, Symlink target) (walkOrder [] root) ->
      skipHidden c && HasPrefix (Rel names) "." = true) ->
  zipRPC c lstat zipPath = (flat_map (entryOf c) (walkOrder [] root), Ok tt)
  /\ forall names content,
      In (names, File content) (walkOrder [] root) ->
      skipHidden c && HasPrefix (Rel names) "." = false ->
      In {| Zip.Name := Rel names; Zip.Method := Zip.Store; Zip.Body := content |}
         (fst (zipRPC c lstat zipPath)).
Proof.
  intros Hp Hl Hsym.
  assert (E : zipRPC c lstat zipPath
              = (flat_map (entryOf c) (walkOrder [] root), Ok tt)).
  { unfold zipRPC, bind, lift. rewrite Hp, Hl. unfold Walk.
    now rewrite forEach_written. }
  split; [exact E|]. intros names content Hin Hvis. rewrite E. simpl.
  apply in_flat_map. exists (names, File content). split; [exact Hin|].
  simpl. rewrite Hvis. now left.
Qed.

Lemma zip_complete_witness :
  zipRPC (withSkipHidden false srvData) (fun _ => Some pubTree) "/pub"
  = (flat_map (entryOf (withSkipHidden false srvData)) (walkOrder [] pubTree), Ok tt)
  /\ forall names content,
      In (names, File content) (walkOrder [] pubTree) ->
      skipHidden (withSkipHidden false srvData) && HasPrefix (Rel names) "." = false ->
      In {| Zip.Name := Rel names; Zip.Method := Zip.Store; Zip.Body := content |}
         (fst (zipRPC (withSkipHidden false srvData) (fun _ => Some pubTree) "/pub")).
Proof.
  apply (@zip_complete (withSkipHidden false srvData) (fun _ => Some pubTree)
           "/pub" "/srv/data/pub" pubTree).
  - reflexivity.
  - reflexivity.
  - simpl. intros names target H.
    repeat (destruct H as [H|H]; [discriminate|]). destruct H.
Defined.

(** Whatever the download ends in, every entry written is stored without
    compression and belongs to a regular file of the requested tree,
    under its relative path; under [skipHidden] no entry name starts
    with '.'. *)
Theorem zip_entries_of_request (c : Config) (lstat : string -> option node)
        (zipPath : string) (e : Zip.entry) :
  In e (fst (zipRPC c lstat zipPath)) ->
  Zip.Method e = Zip.Store
  /\ (skipHidden c = true -> HasPrefix (Zip.Name e) "." = false)
  /\ exists zipFullPath root names,
      enforcePath c zipPath = Ok zipFullPath
      /\ lstat zipFullPath = Some root
      /\ In (names, File (Zip.Body e)) (walkOrder [] root)
      /\ Zip.Name e = Rel names.
Proof.
  unfold zipRPC, bind, lift.
  destruct (enforcePath c zipPath) as [full|err] eqn:Hp; [|intros []].
  destruct (lstat full) as [root|] eqn:Hl; [|intros []].
  intros Hin. pose proof (zip_entries c root) as Hall.
  rewrite Forall_forall in Hall.
  destruct (Hall e Hin) as (Hm & names & Hn & Hname & Hhid).
  split; [exact Hm|]. split.
  - intros Hk. rewrite Hk in Hhid. simpl in Hhid. now rewrite Hname.
  - now exists full, root, names.
Qed.

Lemma zip_entries_of_request_witness :
  Zip.Method {| Zip.Name := "a.txt"; Zip.Method := Zip.Store; Zip.Body := "x" |}
  = Zip.Store
  /\ (skipHidden srvData = true -> HasPrefix "a.txt" "." = false)
  /\ exists zipFullPath root names,
      enforcePath srvData "/pub" = Ok zipFullPath
      /\ (fun _ : string => Some pubTree) zipFullPath = Some root
      /\ In (names, File "x") (walkOrder [] root)
      /\ "a.txt" = Rel names.
Proof.
  apply (@zip_entries_of_request srvData (fun _ => Some pubTree) "/pub"
           {| Zip.Name := "a.txt"; Zip.Method := Zip.Store; Zip.Body := "x" |}).
  simpl. left. reflexivity.
Defined.

(** A download of a regular file (the requested path is no directory):
    the walk visits the file itself under the relative path ".", which
    the hidden test takes for hidden.  Under [skipHidden] the archive is
    empty; otherwise it holds the file as one entry named ".". *)
Theorem zip_single_file (c : Config) (lstat : string -> option node)
        (zipPath zipFullPath content : string) :
  enforcePath c zipPath = Ok zipFullPath ->
  lstat zipFullPath = Some (File content) ->
  zipRPC c lstat zipPath
  = (if skipHidden c then []
     else [{| Zip.Name := "."; Zip.Method := Zip.Store; Zip.Body := content |}],
     Ok tt).
Proof.
  intros Hp Hl. unfold zipRPC, bind, lift. rewrite Hp, Hl.
  unfold Walk. simpl. unfold bind. simpl.
  now destruct (skipHidden c).
Qed.

Lemma zip_single_file_witness :
  zipRPC srvData (fun _ => Some (File "x")) "/pub/a.txt" = ([], Ok tt).
Proof.
  apply (@zip_single_file srvData (fun _ => Some (File "x")) "/pub/a.txt"
           "/srv/data/pub/a.txt" "x"); reflexivity.
Defined.

(** ** The listing: which rows, in which order *)

Section ListingProperties.

Variable PathEscape : string -> string.
Variable humanize : nat -> string.
Variable mapLower : string -> string.

Lemma fold_addRow (c : Config) (_files : list dirElem) (p : pageRows) :
  fold_left (addRow PathEscape humanize mapLower c) _files p
  = {| RowsFiles := (RowsFiles p
                     ++ map (fileRowOf PathEscape humanize mapLower) (shownFiles c _files))%list;
       RowsFolders := (RowsFolders p
                       ++ map (folderRowOf PathEscape) (shownFolders c _files))%list |}.
Proof.
  revert p. induction _files as [|d ds IH]; intros p; simpl.
  - rewrite !app_nil_r. now destruct p.
  - rewrite IH. unfold addRow, shown.
    destruct (skipHidden c && HasPrefix (Fs.Name (lstatInfo d)) "."); [reflexivity|].
    destruct (negb (symlinks c) && Fs.IsSymlink (lstatInfo d)); [reflexivity|].
    destruct (statInfo d) as [el|]; [|reflexivity].
    destruct (Fs.IsDir el) eqn:Hd; simpl; rewrite ?Hd; simpl;
      now rewrite <- !app_assoc.
Qed.

(** The listing keeps the order of the directory's (sorted) elements:
    the file rows are the rows of the elements shown that are not
    directories, the folder rows those of the directories, each in the
    order of the elements; the row "../" comes first among the folders
    exactly when the requested path, with a final separator, differs
    from the route prefix. *)
Theorem listing_rows (c : Config) (path : string) (_files : list dirElem) :
  let rows := replyRows PathEscape humanize mapLower c path _files in
  let dir := if HasSuffix path "/" then path else path ++ "/" in
  RowsFiles rows = map (fileRowOf PathEscape humanize mapLower) (shownFiles c _files)
  /\ RowsFolders rows
     = ((if dir =? extraPath c then [] else [parentRow])
        ++ map (folderRowOf PathEscape) (shownFolders c _files))%list.
Proof.
  unfold replyRows. rewrite fold_addRow. simpl. split; reflexivity.
Qed.

(** Every row other than "../" stands for an element of the directory
    that passed the three tests of the loop: its name does not start
    with '.' when hidden files are skipped, it is no symbolic link
    unless symlinks are followed, and [os.Stat] succeeded on it. *)
Theorem listing_row_origin (c : Config) (path : string) (_files : list dirElem)
        (r : rowTemplate) :
  In r (RowsFiles (replyRows PathEscape humanize mapLower c path _files))
  \/ In r (RowsFolders (replyRows PathEscape humanize mapLower c path _files)) ->
  r = parentRow
  \/ exists d el,
      In d _files
      /\ statInfo d = Some el
      /\ (skipHidden c = true -> HasPrefix (Fs.Name (lstatInfo d)) "." = false)
      /\ (symlinks c = false -> Fs.IsSymlink (lstatInfo d) = false)
      /\ r = if Fs.IsDir el then folderRowOf PathEscape el
             else fileRowOf PathEscape humanize mapLower el.
Proof.
  assert (Hshown : forall d el, shown c d = Some el ->
             statInfo d = Some el
             /\ (skipHidden c = true -> HasPrefix (Fs.Name (lstatInfo d)) "." = false)
             /\ (symlinks c = false -> Fs.IsSymlink (lstatInfo d) = false)).
  { intros d el. unfold shown.
    destruct (skipHidden c) eqn:Hk, (HasPrefix (Fs.Name (lstatInfo d)) ".") eqn:Hh;
      simpl; try discriminate;
      destruct (symlinks c) eqn:Hs, (Fs.IsSymlink (lstatInfo d)) eqn:Hl;
      simpl; try discriminate; intros ->; repeat split; congruence. }
  unfold replyRows. rewrite fold_addRow. simpl. intros [H|H].
  - right. apply in_map_iff in H. destruct H as (el & <- & H).
    unfold shownFiles in H. apply in_flat_map in H. destruct H as (d & Hin & H).
    destruct (shown c d) as [el'|] eqn:Es; [|destruct H].
    destruct (Fs.IsDir el') eqn:Hdir; [destruct H|].
    destruct H as [<-|[]]. exists d, el'.
    destruct (Hshown d el' Es) as (H1 & H2 & H3). rewrite Hdir. auto.
  - apply in_app_or in H. destruct H as [H|H].
    + left. destruct (_ =? extraPath c); [destruct H|].
      destruct H as [<-|[]]. reflexivity.
    + right. apply in_map_iff in H. destruct H as (el & <- & H).
      unfold shownFolders in H. apply in_flat_map in H. destruct H as (d & Hin & H).
      destruct (shown c d) as [el'|] eqn:Es; [|destruct H].
      destruct (Fs.IsDir el') eqn:Hdir; [|destruct H].
      destruct H as [<-|[]]. exists d, el'.
      destruct (Hshown d el' Es) as (H1 & H2 & H3). rewrite Hdir. auto.
Qed.

End ListingProperties.

(** With [url.PathEscape] for the links: the link of a row decodes back
    to the name of its element, the name of a folder without the final
    separator.  The escaped name never starts with a separator, so the
    branch of lines 132-134 that would cut one off changes nothing. *)
Theorem listing_href (humanize : nat -> string) (mapLower : string -> string)
        (c : Config) (path : string) (_files : list dirElem) (r : rowTemplate) :
  (In r (RowsFiles (replyRows Url.PathEscape humanize mapLower c path _files)) ->
   Href r = Url.PathEscape (Name r)
   /\ Url.PathUnescape (Href r) = Some (Name r))
  /\ (In r (RowsFolders (replyRows Url.PathEscape humanize mapLower c path _files)) ->
      r = parentRow
      \/ exists name, Name r = name ++ "/"
                      /\ Href r = Url.PathEscape name
                      /\ Url.PathUnescape (Href r) = Some name).
Proof.
  unfold replyRows. rewrite fold_addRow. simpl. split; intros H.
  - apply in_map_iff in H. destruct H as (el & <- & _). simpl.
    split; [reflexivity | apply unescape_escaped].
  - apply in_app_or in H. destruct H as [H|H].
    + left. destruct (_ =? extraPath c); [destruct H|].
      destruct H as [<-|[]]. reflexivity.
    + right. apply in_map_iff in H. destruct H as (el & <- & _).
      exists (Fs.Name el). simpl. rewrite PathEscape_no_slash.
      repeat split. apply unescape_escaped.
Qed.

(** ** [humanize] *)

Section HumanizeProperties.

Variable float64 : Z -> Q.
Variable FormatFloat : Q -> string.

Lemma below_1024 (b : Q) : negb (Qle_bool 1024 b) = true <-> (b < 1024)%Q.
Proof.
  rewrite negb_true_iff. split; intros H.
  - apply Qnot_le_lt. intros Hle. apply Qle_bool_iff in Hle. congruence.
  - destruct (Qle_bool 1024 b) eqn:E; [|reflexivity].
    apply Qle_bool_iff in E. exfalso. now apply (Qlt_not_le _ _ H).
Qed.

Lemma humanizeLoop_bounded (fuel : nat) :
  forall (b : Q) (u : nat),
    (b < pow1024 fuel)%Q -> (0 < fuel)%nat -> (u + fuel <= 9)%nat ->
    exists k unit,
      (k < fuel)%nat
      /\ nth_error units (u + k) = Some unit
      /\ humanizeLoop FormatFloat fuel b u = Some (Ok (FormatFloat (scaled b k) ++ unit))
      /\ (scaled b k < 1024)%Q
      /\ ((0 < k)%nat -> (1024 <= scaled b (k - 1))%Q).
Proof.
  induction fuel as [|fuel IH]; intros b u Hb Hfuel Hu; [lia|].
  cbn [humanizeLoop].
  destruct (negb (Qle_bool 1024 b)) eqn:E.
  - apply below_1024 in E.
    destruct (nth_error units u) as [unit|] eqn:En.
    + exists 0%nat, unit. rewrite Nat.add_0_r, En. simpl.
      repeat split; auto; try lia.
    + apply nth_error_None in En. simpl in En. lia.
  - assert (Hge : (1024 <= b)%Q).
    { apply Qnot_lt_le. intros Hlt. apply below_1024 in Hlt. congruence. }
    assert (Hdiv : (b / 1024 < pow1024 fuel)%Q).
    { apply Qlt_shift_div_r; [reflexivity|]. cbn [pow1024] in Hb.
      now rewrite Qmult_comm. }
    destruct fuel as [|fuel'].
    { exfalso. cbn [pow1024] in Hb. apply (Qlt_not_le _ _ Hb).
      now rewrite Qmult_1_r. }
    destruct (IH (b / 1024)%Q (S u) Hdiv) as (k & unit & Hk & Hn & Hl & Hlt & Hprev);
      [lia | lia |].
    exists (S k), unit. replace (u + S k)%nat with (S u + k)%nat by lia.
    repeat split; auto; try lia.
    intros _. cbn [Nat.sub]. rewrite Nat.sub_0_r.
    destruct k as [|k']; [exact Hge|].
    cbn [scaled]. specialize (Hprev ltac:(lia)).
    now replace (S k' - 1)%nat with k' in Hprev by lia.
Qed.

(** For every size whose conversion to [float64] is at most 2^63 (every
    [int64]), the loop of [humanize] ends within seven turns and the
    index into the unit table stays in range: the result is the
    formatted size, divided by 1024 as often as it takes to get below
    1024, followed by one of the units B, k, M, G, T, P, E. *)
Theorem humanize_in_range (bytes : Z) :
  (float64 bytes <= 9223372036854775808)%Q ->
  exists k unit,
    (k <= 6)%nat
    /\ nth_error units k = Some unit
    /\ humanize float64 FormatFloat 7 bytes
       = Some (Ok (FormatFloat (scaled (float64 bytes) k) ++ unit))
    /\ (scaled (float64 bytes) k < 1024)%Q
    /\ ((0 < k)%nat -> (1024 <= scaled (float64 bytes) (k - 1))%Q).
Proof.
  intros Hb.
  destruct (@humanizeLoop_bounded 7 (float64 bytes) 0) as (k & unit & H1 & H2 & H3 & H4 & H5).
  - eapply Qle_lt_trans; [exact Hb | reflexivity].
  - lia.
  - lia.
  - exists k, unit. repeat split; auto. lia.
Qed.

End HumanizeProperties.

Lemma humanize_in_range_witness :
  exists k unit,
    (k <= 6)%nat
    /\ nth_error units k = Some unit
    /\ humanize inject_Z (fun _ => "") 7 5000000%Z
       = Some (Ok ((fun _ : Q => "") (scaled (inject_Z 5000000) k) ++ unit))
    /\ (scaled (inject_Z 5000000) k < 1024)%Q
    /\ ((0 < k)%nat -> (1024 <= scaled (inject_Z 5000000) (k - 1))%Q).
Proof.
  apply (@humanize_in_range inject_Z (fun _ => "") 5000000%Z).
  vm_compute. discriminate.
Defined.

Lemma listing_row_origin_witness :
  {| Name := "notes.TXT"; Href := "notes.TXT"; Size := ""; Ext := "txt" |} = parentRow
  \/ exists d el,
      In d [regular ".profile" 3; regular "notes.TXT" 10]
      /\ statInfo d = Some el
      /\ (skipHidden srvData = true -> HasPrefix (Fs.Name (lstatInfo d)) "." = false)
      /\ (symlinks srvData = false -> Fs.IsSymlink (lstatInfo d) = false)
      /\ {| Name := "notes.TXT"; Href := "notes.TXT"; Size := ""; Ext := "txt" |}
         = if Fs.IsDir el then folderRowOf (fun s => s) el
           else fileRowOf (fun s => s) (fun _ => "") (fun s => s) el.
Proof.
  apply (@listing_row_origin (fun s => s) (fun _ => "") (fun s => s) srvData "/pub/"
           [regular ".profile" 3; regular "notes.TXT" 10]).
  left. simpl. left. reflexivity.
Defined.
